(** * Notebook helpers of the advanced-RAG sample, embedded and verified

    The repository is a set of notebooks.  The code that carries logic of
    its own is small: the Athena helper [execute_athena_query] with its
    polling loop, the Excel loader [load_excel_to_df], the two
    "create if missing" cells, and the call sites of the helpers that
    live in [advanced_rag_utils].  The first part of this file embeds
    them, one module each; the second part states and proves their
    properties. *)

From Stdlib Require Import ZArith NArith Ascii QArith Qcanon.
From stdpp Require Import base strings list gmap pretty.

Close Scope Qc_scope.
Close Scope Q_scope.

(** ** pandas frames, as far as the notebooks use them *)

Module Pandas.

(** A column label: a [str], a whole number (a header cell that holds a
    number), or the NaN that the [.str] methods leave where a label is no
    [str]. *)
Inductive label : Type :=
  | Str (s : string)
  | Int (n : Z)
  | NaN.

#[global] Instance label_eq_dec : EqDecision label.
Proof. solve_decision. Defined.

(** A frame is its column labels and its rows of cells. *)
Record DataFrame (cell : Type) : Type := mkDataFrame {
  columns : list label;
  data : list (list cell)
}.
Arguments mkDataFrame {cell} _ _.
Arguments columns {cell} _.
Arguments data {cell} _.

(** [df.head(n)] *)
Definition head {cell} (n : nat) (df : DataFrame cell) : DataFrame cell :=
  mkDataFrame (columns df) (take n (data df)).

(** A row of [str] brought to a width: the cells it lacks are [None]. *)
Definition pad (width : nat) (row : list string) : list (option string) :=
  (Some <$> row) ++ replicate (width - length row) None.

(** [pd.DataFrame(rows, columns=names)] for a list of lists of [str].
    Without rows the frame is empty under the given names.  Otherwise the
    rows are laid out as wide as the widest of them, and the names must be
    as many: if not, the constructor raises [ValueError] with the message
    on the left. *)
Definition DataFrame_of_rows (rows : list (list string)) (names : list string)
    : string + DataFrame (option string) :=
  match rows with
  | [] => inr (mkDataFrame (Str <$> names) [])
  | _ :: _ =>
      let width := max_list (length <$> rows) in
      if decide (length names = width)
      then inr (mkDataFrame (Str <$> names) (pad width <$> rows))
      else inl (pretty (length names) +:+ " columns passed, passed data had "
                +:+ pretty width +:+ " columns")
  end.

(** [index.str.method(...)]: the accessor is there for an index that
    holds at least one [str]; an index of numbers only, or without any
    label, has none. *)
Definition is_str (l : label) : bool :=
  match l with Str _ => true | _ => false end.

Definition has_str (index : list label) : bool := existsb is_str index.

(** The method is applied to the labels that are [str]; the others come
    back as NaN. *)
Definition str_map (method : string → string) (l : label) : label :=
  match l with
  | Str s => Str (method s)
  | _ => NaN
  end.

End Pandas.

(** ** The Athena helper *)

Module Athena.
Import Pandas.

(** [response['QueryExecution']['Status']]: [State] is always there,
    [StateChangeReason] is an optional member (read with [.get]). *)
Record QueryExecutionStatus : Type := mkStatus {
  State : string;
  StateChangeReason : option string
}.

(** One field of a result row: a dict whose ['VarCharValue'] may be
    missing. *)
Record Datum : Type := mkDatum { VarCharValue : option string }.

(** [row['Data']] and [page['ResultSet']['Rows']]. *)
Record Row : Type := mkRow { Data : list Datum }.
Record Page : Type := mkPage { Rows : list Row }.

(** The boto3 Athena client as the helper sees it.  The remote job is
    observed only through [get_query_execution]; its second argument is
    the number of polls already made for that execution id. *)
Record client : Type := mkClient {
  start_query_execution : string -> string -> string -> string;
  get_query_execution : string -> nat -> QueryExecutionStatus;
  paginate : string -> list Page
}.

(** What a run of the helper does besides returning. *)
Inductive event : Type :=
  | Sleep (seconds : nat)
  | Print (line : string)
  | Display (df : DataFrame (option string)).

(** The exceptions a run can end with, by the class they are raised
    as: the helper's own [Exception], and the [ValueError] of
    [pd.DataFrame]. *)
Inductive error : Type :=
  | Exception (message : string)
  | ValueError (message : string).

(** How a call ends: it falls off the end of the function, or an
    exception leaves it. *)
Inductive completion : Type :=
  | Returned
  | Raised (e : error).

(** [state in ['SUCCEEDED', 'FAILED', 'CANCELLED']] *)
Definition terminal_states : list string :=
  ["SUCCEEDED"; "FAILED"; "CANCELLED"].

Definition terminal (state : string) : bool :=
  bool_decide (state ∈ terminal_states).

(** The [while True] loop.  [k] polls have been made so far; [fuel]
    bounds the number of iterations the model unrolls, the source has no
    such bound.  The result is the trace of sleeps together with the last
    response, which the code after the loop reads. *)
Fixpoint wait_for_query (fuel : nat) (poll : nat -> QueryExecutionStatus)
    (k : nat) : option (list event * QueryExecutionStatus) :=
  match fuel with
  | O => None
  | S fuel' =>
      let response := poll k in
      let state := State response in
      if terminal state then Some ([], response)
      else
        '(slept, last) ← wait_for_query fuel' poll (S k);
        Some (Sleep 1 :: slept, last)
  end.

(** [[field.get('VarCharValue', '') for field in row['Data']]] *)
Definition row_values (row : Row) : list string :=
  (λ field, default "" (VarCharValue field)) <$> Data row.

(** The two nested [for] loops appending to [results]. *)
Definition collect_results (pages : list Page) : list (list string) :=
  foldl (λ results page,
           foldl (λ results row, results ++ [row_values row])
                 results (Rows page))
        [] pages.

Definition execute_athena_query (athena_client : client) (fuel : nat)
    (query database s3_output : string) : option (list event * completion) :=
  let query_execution_id :=
    start_query_execution athena_client query database s3_output in
  '(slept, response) ←
    wait_for_query fuel (get_query_execution athena_client query_execution_id) 0;
  let state := State response in
  if bool_decide (state = "SUCCEEDED") then
    let results := collect_results (paginate athena_client query_execution_id) in
    match results with
    | header :: rest =>
        match DataFrame_of_rows rest header with
        | inr df => Some (slept ++ [Display df], Returned)
        | inl message => Some (slept, Raised (ValueError message))
        end
    | [] => Some (slept ++ [Print "Successfully executed."], Returned)
    end
  else
    let error_message :=
      default "No error message available" (StateChangeReason response) in
    Some (slept, Raised (Exception ("Query failed: " +:+ error_message))).


(** Two remote services to run the helper against: one whose job is
    seen once as RUNNING and then FAILED with a reason, and one whose job
    has SUCCEEDED at the first poll and returns a header and one data row
    (with a missing value) on two pages. *)
Definition failing_service : client :=
  mkClient
    (λ _ _ _, "7f3c")
    (λ _ k, if decide (k < 1) then mkStatus "RUNNING" None
            else mkStatus "FAILED" (Some "SYNTAX_ERROR: line 1:8"))
    (λ _, []).

Definition returns_service : client :=
  mkClient
    (λ _ _ _, "a01b")
    (λ _ _, mkStatus "SUCCEEDED" None)
    (λ _, [mkPage [mkRow [mkDatum (Some "returned"); mkDatum (Some "order_id")]];
           mkPage [mkRow [mkDatum (Some "Yes"); mkDatum None]]]).

(** A service whose job has SUCCEEDED and whose second row is wider
    than the first. *)
Definition ragged_service : client :=
  mkClient
    (λ _ _ _, "e5d2")
    (λ _ _, mkStatus "SUCCEEDED" None)
    (λ _, [mkPage [mkRow [mkDatum (Some "returned"); mkDatum (Some "order_id")];
                   mkRow [mkDatum (Some "Yes"); mkDatum (Some "CA-1");
                          mkDatum (Some "APAC")]]]).

(** [part] occurs in [whole]. *)
Definition contains (whole part : string) : Prop :=
  ∃ before after, whole = before +:+ part +:+ after.

End Athena.

(** ** Python exceptions and results *)

Module Python.

(** The exception classes the notebooks can meet.  botocore derives one
    class per modelled service error; [ClientError] stands for the other
    service errors, told apart by their error code. *)
Inductive exception : Type :=
  | BucketAlreadyOwnedByYou
  | AlreadyExistsException
  | ClientError (code : string)
  | NameError (name : string)
  | IndexError
  | KeyError (key : string)
  | AttributeError.

#[global] Instance exception_eq_dec : EqDecision exception.
Proof. solve_decision. Defined.

(** A call returns a value or raises. *)
Inductive result (A : Type) : Type :=
  | Ok (a : A)
  | Raise (e : exception).
Arguments Ok {A} _.
Arguments Raise {A} _.

(** *** [str] methods, on strings of code points below 256 *)

Definition code (c : ascii) : N := Ascii.N_of_ascii c.

(** [c.isspace()]: tab to carriage return, the four separators
    U+001C..U+001F, space, NEL and no-break space. *)
Definition isspace (c : ascii) : bool :=
  let n := code c in
  ((9 <=? n) && (n <=? 13) || (28 <=? n) && (n <=? 32)
   || (n =? 133) || (n =? 160))%N.

(** [c.isupper()]: A..Z and the capital letters of Latin-1 (U+00D7 is the
    multiplication sign). *)
Definition isupper (c : ascii) : bool :=
  let n := code c in
  ((65 <=? n) && (n <=? 90)
   || (192 <=? n) && (n <=? 222) && negb (n =? 215))%N.

(** The lowercase partner of a capital letter is 32 code points up. *)
Definition lower_char (c : ascii) : ascii :=
  if isupper c then Ascii.ascii_of_N (code c + 32) else c.

(** [s.replace(old, new)] for one-character [old] and [new]. *)
Fixpoint replace (old new : ascii) (s : string) : string :=
  match s with
  | EmptyString => EmptyString
  | String c rest =>
      String (if decide (c = old) then new else c) (replace old new rest)
  end.

Fixpoint lstrip (s : string) : string :=
  match s with
  | EmptyString => EmptyString
  | String c rest => if isspace c then lstrip rest else s
  end.

Fixpoint rstrip (s : string) : string :=
  match s with
  | EmptyString => EmptyString
  | String c rest =>
      match rstrip rest with
      | EmptyString => if isspace c then EmptyString else String c EmptyString
      | kept => String c kept
      end
  end.

(** [s.strip()] *)
Definition strip (s : string) : string := rstrip (lstrip s).

(** [s.lower()] *)
Fixpoint lower (s : string) : string :=
  match s with
  | EmptyString => EmptyString
  | String c rest => String (lower_char c) (lower rest)
  end.

(** The characters of a string. *)
Fixpoint chars (s : string) : list ascii :=
  match s with
  | EmptyString => []
  | String c rest => c :: chars rest
  end.

End Python.

(** ** The "create if missing" cells *)

Module Cells.
Import Python.

(** What running a cell leaves behind: the lines it printed and the
    exception that escaped it, if any. *)
Definition cell_outcome : Type := list string * option exception.

(** The bucket cell.  The client is made before the [try]; the [try]
    holds the [create_bucket] call and the first [print]. *)
Definition create_bucket_cell
    (create_bucket : string → string → result unit)
    (s3_bucket_name region : string) : cell_outcome :=
  match create_bucket s3_bucket_name region with
  | Ok _ => (["S3 bucket created"], None)
  | Raise e =>
      if decide (e = BucketAlreadyOwnedByYou)
      then (["S3 bucket already exists"], None)
      else ([], Some e)
  end.

(** The database cell.  Here the client is made inside the [try], and the
    [except] clause names the class through [glue_client]: when making the
    client raises and the name is not bound from an earlier run, looking
    the class up raises [NameError] in turn. *)
Definition create_database_cell
    (glue_client_bound : bool)
    (boto3_client : result unit)
    (create_database : string → result unit)
    (db_name : string) : cell_outcome :=
  let handle (bound : bool) (e : exception) : cell_outcome :=
    if bound then
      if decide (e = AlreadyExistsException)
      then (["Database " +:+ db_name +:+ " already exists"], None)
      else ([], Some e)
    else ([], Some (NameError "glue_client")) in
  match boto3_client with
  | Raise e => handle glue_client_bound e
  | Ok _ =>
      match create_database db_name with
      | Ok _ => (["Successfully created database: " +:+ db_name], None)
      | Raise e => handle true e
      end
  end.

End Cells.

(** ** The Excel loader *)

Module Excel.
Import Python Pandas.

Section Loader.
(** The cells of a sheet are not looked at by the loader. *)
Context {cell : Type}.

(** A workbook as [pd.ExcelFile] presents it: its sheets in order, each
    with its name and the frame [pd.read_excel] parses it to. *)
Definition ExcelFile : Type := list (string * DataFrame cell).

Definition sheet_names (excel_file : ExcelFile) : list string :=
  fst <$> excel_file.

(** [pd.read_excel(excel_file, sheet_name=name)] *)
Fixpoint read_excel (excel_file : ExcelFile) (sheet_name : string)
    : option (DataFrame cell) :=
  match excel_file with
  | [] => None
  | (name, df) :: others =>
      if decide (name = sheet_name) then Some df
      else read_excel others sheet_name
  end.

(** [df.columns = new_columns] *)
Definition set_columns (df : DataFrame cell) (new_columns : list label)
    : DataFrame cell :=
  mkDataFrame new_columns (data df).

(** [index.str.method(...)]: [AttributeError] when the index has no
    [.str] accessor. *)
Definition str_method (method : string → string) (index : list label)
    : result (list label) :=
  if has_str index then Ok (str_map method <$> index)
  else Raise AttributeError.

(** The loader.  [s3] maps bucket and key to the workbook stored there;
    the result carries the frame printed by [print(df.head(5))] and the
    frame returned. *)
Definition load_excel_to_df
    (s3 : gmap (string * string) ExcelFile)
    (source_bucket source_key : string)
    : result (DataFrame cell * DataFrame cell) :=
  match s3 !! (source_bucket, source_key) with
  | None => Raise (ClientError "NoSuchKey")
  | Some excel_file =>
      match sheet_names excel_file with
      | [] => Raise IndexError
      | first_name :: _ =>
          match read_excel excel_file first_name with
          | None => Raise (KeyError first_name)
          | Some df =>
              match str_method (replace " " "_") (columns df) with
              | Raise e => Raise e
              | Ok replaced =>
              let df := set_columns df replaced in
              match str_method strip (columns df) with
              | Raise e => Raise e
              | Ok stripped =>
              let df := set_columns df stripped in
              match str_method lower (columns df) with
              | Raise e => Raise e
              | Ok lowered =>
              let df := set_columns df lowered in
              Ok (head 5 df, df)
              end end end
          end
      end
  end.

End Loader.

(** A sheet whose labels carry capitals, inner and outer spaces and a
    tab, in a workbook with a second sheet. *)
Definition orders_sheet : DataFrame Z :=
  mkDataFrame [Str "Row ID"; Str " Order Date "; Str (String "009" "Ship Mode")]
              [[1; 2; 3]; [4; 5; 6]]%Z.

Definition orders_workbook : ExcelFile :=
  [("Orders", orders_sheet); ("Notes", mkDataFrame [Str "Remark"] [[7]]%Z)].

Definition orders_bucket : gmap (string * string) ExcelFile :=
  {[ ("aws-bigdata-blog", "orders.xlsx") := orders_workbook ]}.

(** A sheet with one header cell that holds the number 2023, and a
    sheet whose header cells are all numbers. *)
Definition sales_sheet : DataFrame Z :=
  mkDataFrame [Str "Order ID"; Int 2023] [[1; 250]; [2; 90]]%Z.

Definition years_sheet : DataFrame Z :=
  mkDataFrame [Int 2023; Int 2024] [[250; 300]]%Z.

Definition sales_bucket : gmap (string * string) ExcelFile :=
  {[ ("retail", "sales.xlsx") := [("Sales", sales_sheet)];
     ("retail", "years.xlsx") := [("Years", years_sheet)] ]}.

End Excel.

(** ** Metadata filters *)

Module MetadataFilter.

(** The four leaf operators of the filter tree. *)
Inductive operator : Type :=
  | equals
  | greaterThanOrEquals
  | lessThanOrEquals
  | startsWith.

(** A metadata value: text (company, document type, source URI) or a
    number (year, page). *)
Inductive value : Type :=
  | Text (s : string)
  | Number (n : Z).

#[global] Instance value_eq_dec : EqDecision value.
Proof. solve_decision. Defined.

(** The tagged tree: leaves [{field, operator, value}], and the logical
    nodes over child filters. *)
#[local] Unset Elimination Schemes.
Inductive filter : Type :=
  | leaf (field : string) (op : operator) (bound : value)
  | andAll (children : list filter)
  | orAll (children : list filter).
#[local] Set Elimination Schemes.

(** The metadata of a document chunk. *)
Abbreviation chunk := (gmap string value).

(** [s] starts with [prefix]. *)
Fixpoint starts_with (prefix s : string) : bool :=
  match prefix, s with
  | EmptyString, _ => true
  | String p prefix', String c s' =>
      bool_decide (p = c) && starts_with prefix' s'
  | String _ _, EmptyString => false
  end.

(** A leaf compares the chunk's value of the field with the bound. *)
Definition leaf_holds (op : operator) (bound actual : value) : bool :=
  match op, bound, actual with
  | equals, _, _ => bool_decide (actual = bound)
  | greaterThanOrEquals, Number b, Number a => bool_decide (b ≤ a)%Z
  | lessThanOrEquals, Number b, Number a => bool_decide (a ≤ b)%Z
  | startsWith, Text p, Text a => starts_with p a
  | _, _, _ => false
  end.

(** When a chunk satisfies a filter expression. *)
Fixpoint satisfies (c : chunk) (f : filter) : bool :=
  match f with
  | leaf field op bound =>
      match c !! field with
      | Some actual => leaf_holds op bound actual
      | None => false
      end
  | andAll children => forallb (satisfies c) children
  | orAll children => existsb (satisfies c) children
  end.

(** The year criterion: a single year, or a list of one or more. *)
Inductive years : Type :=
  | one_year (y : Z)
  | year_list (y : Z) (more : list Z).

(** The optional criteria, under the names the notebook gives them;
    [continuous_range] records that the criteria indicate a continuous
    range of years. *)
Record criteria : Type := mkCriteria {
  company : option string;
  year : option years;
  docType : option string;
  min_page : option Z;
  max_page : option Z;
  s3_prefix : option string;
  continuous_range : bool
}.

Definition no_criteria : criteria :=
  mkCriteria None None None None None None false.

Section Builder.
(** The metadata fields that hold a chunk's page number and source URI. *)
Variables (page_field uri_field : string).

Definition year_equals (y : Z) : filter := leaf "year" equals (Number y).

(** Modelled from the spec: the translation of the year criterion inside
    the filter builder of [advanced_rag_utils], which is not under src/.
    A single year is an equality leaf; a year list is an OR-set of
    equality leaves, or the pair of bounds at its smallest and largest
    year when the criteria indicate a continuous range. *)
Definition year_filters (c : criteria) : list filter :=
  match year c with
  | None => []
  | Some (one_year y) => [year_equals y]
  | Some (year_list y more) =>
      if continuous_range c then
        [leaf "year" greaterThanOrEquals (Number (foldr Z.min y more));
         leaf "year" lessThanOrEquals (Number (foldr Z.max y more))]
      else [orAll (year_equals <$> y :: more)]
  end.

(** Modelled from the spec: the filter builder of [advanced_rag_utils]
    (not under src/) that [query_financial_data] calls with its optional
    criteria.  Every supplied criterion contributes its condition, absent
    ones contribute nothing, and the conditions are children of one
    logical-AND node. *)
Definition build_filter (c : criteria) : filter :=
  andAll
    (from_option (λ name, [leaf "company" equals (Text name)]) [] (company c)
     ++ year_filters c
     ++ from_option (λ t, [leaf "docType" equals (Text t)]) [] (docType c)
     ++ from_option (λ lo, [leaf page_field greaterThanOrEquals (Number lo)])
          [] (min_page c)
     ++ from_option (λ hi, [leaf page_field lessThanOrEquals (Number hi)])
          [] (max_page c)
     ++ from_option (λ prefix, [leaf uri_field startsWith (Text prefix)])
          [] (s3_prefix c)).

(** Modelled from the spec: [create_standard_filter] of
    [advanced_rag_utils] (not under src/), which the notebook describes
    as an andAll of two conditions, docType equals and year equals. *)
Definition create_standard_filter (docType : string) (year : Z) : filter :=
  build_filter
    (mkCriteria None (Some (one_year year)) (Some docType) None None None false).

(** What it means for the supplied criteria to hold for a chunk, in the
    words of the spec, criterion by criterion. *)
Definition year_holds (c : criteria) (m : chunk) : Prop :=
  match year c with
  | None => True
  | Some (one_year y) => m !! "year" = Some (Number y)
  | Some (year_list y more) =>
      ∃ actual, m !! "year" = Some (Number actual) ∧
        if continuous_range c then
          (∃ lo, lo ∈ y :: more ∧ (lo ≤ actual)%Z) ∧
          (∃ hi, hi ∈ y :: more ∧ (actual ≤ hi)%Z)
        else actual ∈ y :: more
  end.

Definition criteria_hold (c : criteria) (m : chunk) : Prop :=
  (∀ name, company c = Some name → m !! "company" = Some (Text name)) ∧
  year_holds c m ∧
  (∀ t, docType c = Some t → m !! "docType" = Some (Text t)) ∧
  (∀ lo, min_page c = Some lo →
     ∃ page, m !! page_field = Some (Number page) ∧ (lo ≤ page)%Z) ∧
  (∀ hi, max_page c = Some hi →
     ∃ page, m !! page_field = Some (Number page) ∧ (page ≤ hi)%Z) ∧
  (∀ prefix, s3_prefix c = Some prefix →
     ∃ rest, m !! uri_field = Some (Text (prefix +:+ rest))).

End Builder.

(** Criteria with a company and a list of two years, outside the range
    form. *)
Definition amazon_2023_2024 : criteria :=
  mkCriteria (Some "Amazon") (Some (year_list 2023 [2024%Z])) None None None
             None false.

(** A chunk of Amazon's 2024 report, page 12. *)
Definition amazon_chunk : chunk :=
  {[ "company" := Text "Amazon"; "year" := Number 2024;
     "docType" := Text "10K Report"; "page" := Number 12;
     "uri" := Text "s3://bucket/data/pdf_documents/AMZN-2024.pdf" ]}.

End MetadataFilter.

(** ** The cell that reads the cost report *)

Module Cost.
Import Python.

#[global] Instance result_ret : MRet result := λ A x, Ok x.

#[global] Instance result_bind : MBind result :=
  λ A B f call, match call with Ok a => f a | Raise e => Raise e end.

(** [d[key]] on a dict with string keys. *)
Definition getitem {V} (d : gmap string V) (key : string) : result V :=
  match d !! key with
  | Some v => Ok v
  | None => Raise (KeyError key)
  end.

(** A value in a row of the cost table. *)
Inductive row_value : Type :=
  | Label (s : string)
  | Amount (q : Qc).

(** The cell that builds [new_row] from the report, key by key in the
    order of the dict display. *)
Definition new_row (kb_chunking_strategy : string)
    (vector_store_embedding_cost : gmap string Qc)
    : result (gmap string row_value) :=
  duration ← getitem vector_store_embedding_cost "duration in minutes";
  input_tokens ← getitem vector_store_embedding_cost "input_tokens";
  invocation_count ← getitem vector_store_embedding_cost "invocation_count";
  total_token_costs ← getitem vector_store_embedding_cost "total token costs";
  mret {[ "chunking_algo" := Label kb_chunking_strategy;
          "embedding_seconds" := Amount (duration * Qc_of_Z 60)%Qc;
          "input_tokens" := Amount input_tokens;
          "invocation_count" := Amount invocation_count;
          "total_token_costs" := Amount total_token_costs ]}.

End Cost.

(** ** The retail notebook: names, upload and table definitions *)

Module Retail.
Import Python Pandas Excel.

(** The variables cell. *)
Definition s3_bucket_name (account_id region : string) : string :=
  account_id +:+ "-" +:+ region +:+ "-s3-retail-db-for-agent-example".

Definition db_name : string := "retail".

Definition s3_output (account_id region : string) : string :=
  "s3://" +:+ s3_bucket_name account_id region +:+ "/athena-query-output/".

(** The keys of the two workbooks and the paths their CSV files are
    written to. *)
Definition order_table_s3_key : string :=
  "artifacts/aws-blog-joining-across-quicksight/orders.xlsx".
Definition returns_table_s3_key : string :=
  "artifacts/aws-blog-joining-across-quicksight/returns.xlsx".
Definition source_bucket_name : string := "aws-bigdata-blog".

Definition orders_csv (account_id region : string) : string :=
  "s3://" +:+ s3_bucket_name account_id region +:+ "/data/orders/orders.csv".

Definition returns_csv (account_id region : string) : string :=
  "s3://" +:+ s3_bucket_name account_id region +:+ "/data/returns/returns.csv".

(** The cell that loads both workbooks and then writes both frames with
    [to_csv].  The result lists the previews printed by the loader and
    the objects written, in order; a loader that raises ends the cell. *)
Definition upload_cell {cell}
    (s3 : gmap (string * string) (@ExcelFile cell))
    (account_id region : string)
    : list (DataFrame cell) * result (list (string * DataFrame cell)) :=
  match load_excel_to_df s3 source_bucket_name order_table_s3_key with
  | Raise e => ([], Raise e)
  | Ok (orders_preview, df_orders) =>
      match load_excel_to_df s3 source_bucket_name returns_table_s3_key with
      | Raise e => ([orders_preview], Raise e)
      | Ok (returns_preview, df_returns) =>
          ([orders_preview; returns_preview],
           Ok [(orders_csv account_id region, df_orders);
               (returns_csv account_id region, df_returns)])
      end
  end.

(** The two table definitions, as the f-strings evaluate. *)
Definition orders_sql (account_id region : string) : string :=
  "
    CREATE EXTERNAL TABLE IF NOT EXISTS orders (
        row_id BIGINT,
        order_id STRING,
        order_date TIMESTAMP,
        ship_date TIMESTAMP,
        ship_mode STRING,
        customer_id STRING,
        customer_name STRING,
        segment STRING,
        city STRING,
        state STRING,
        country STRING,
        postal_code DOUBLE,
        market STRING,
        region STRING,
        product_id STRING,
        category STRING,
        `sub-category` STRING,
        product_name STRING,
        sales DOUBLE,
        quantity BIGINT,
        discount DOUBLE,
        profit DOUBLE,
        shipping_cost DOUBLE,
        order_priority STRING
    )
    ROW FORMAT DELIMITED
    FIELDS TERMINATED BY ','
    LINES TERMINATED BY '
'
    LOCATION 's3://"
  +:+ account_id +:+ "-" +:+ region +:+
  "-s3-retail-db-for-agent-example/data/orders'
    TBLPROPERTIES ('skip.header.line.count'='1')
".

Definition returns_sql (account_id region : string) : string :=
  "
    CREATE EXTERNAL TABLE IF NOT EXISTS returns (
        returned STRING,
        order_id STRING,
        market STRING
    )
    ROW FORMAT DELIMITED
    FIELDS TERMINATED BY ','
    LINES TERMINATED BY '
'
    LOCATION 's3://"
  +:+ account_id +:+ "-" +:+ region +:+
  "-s3-retail-db-for-agent-example/data/returns'
    TBLPROPERTIES ('skip.header.line.count'='1')
".

End Retail.

(** ** The diagram cell of the agents notebook *)

Module Strands.
Import Python.

(** *** More [str] methods *)

(** [s.find(sub)], with [None] for -1; [sub in s] holds exactly when it
    is not [None]. *)
Fixpoint find (sub s : string) : option nat :=
  if MetadataFilter.starts_with sub s then Some 0
  else match s with
       | EmptyString => None
       | String _ rest => S <$> find sub rest
       end.

(** [s[n:]] and [s[:n]] *)
Fixpoint drop_chars (n : nat) (s : string) : string :=
  match n, s with
  | S n', String _ rest => drop_chars n' rest
  | _, _ => s
  end.

Fixpoint take_chars (n : nat) (s : string) : string :=
  match n, s with
  | S n', String c rest => String c (take_chars n' rest)
  | _, _ => EmptyString
  end.

(** [s.find(sub, start)] *)
Definition find_from (sub s : string) (start : nat) : option nat :=
  if decide (start ≤ String.length s)
  then (λ i, start + i) <$> find sub (drop_chars start s)
  else None.

(** [s[start:stop]] for indices that are not negative. *)
Definition slice (s : string) (start stop : nat) : string :=
  take_chars (stop - start) (drop_chars start s).

(** [s.strip(chars)] *)
Fixpoint lstrip_set (set : list ascii) (s : string) : string :=
  match s with
  | EmptyString => EmptyString
  | String c rest =>
      if bool_decide (c ∈ set) then lstrip_set set rest else s
  end.

Fixpoint rstrip_set (set : list ascii) (s : string) : string :=
  match s with
  | EmptyString => EmptyString
  | String c rest =>
      match rstrip_set set rest with
      | EmptyString =>
          if bool_decide (c ∈ set) then EmptyString else String c EmptyString
      | kept => String c kept
      end
  end.

Definition strip_set (set : list ascii) (s : string) : string :=
  rstrip_set set (lstrip_set set s).

(** *** The agent's result and the operating system *)

(** The value of an attribute: a [str], or something else. *)
Inductive attribute : Type :=
  | StrValue (s : string)
  | OtherValue.

(** How [str(agent_result)] ends. *)
Inductive str_call : Type :=
  | Converted (text : string)
  | Failed (error : string).

(** The agent's result as the cell probes it: the three attributes it
    looks for (absent, or present with a value), the object itself when
    it is a [str], and what [str()] makes of it. *)
Record AgentResult : Type := mkAgentResult {
  response : option attribute;
  content : option attribute;
  output : option attribute;
  as_str : option string;
  to_str : str_call
}.

(** What the cell asks of [os]. *)
Record os : Type := mkOs {
  path_exists : string → bool;
  getcwd : string;
  dirname : string → string;
  listdir : string → list string
}.

Inductive shown : Type :=
  | Print (line : string)
  | DisplayImage (filename : string).

(** [hasattr(agent_result, name) and isinstance(agent_result.name, str)] *)
Definition str_attribute (a : option attribute) : option string :=
  match a with
  | Some (StrValue s) => Some s
  | _ => None
  end.

(** The chain of [if]/[elif] that picks the response text. *)
Definition extract_text (agent_result : AgentResult) : list shown * string :=
  match str_attribute (response agent_result) with
  | Some s => ([], s)
  | None =>
  match str_attribute (content agent_result) with
  | Some s => ([], s)
  | None =>
  match str_attribute (output agent_result) with
  | Some s => ([], s)
  | None =>
  match as_str agent_result with
  | Some s => ([], s)
  | None =>
  match to_str agent_result with
  | Converted s => ([Print "DEBUG: Converted agent_result to string."], s)
  | Failed e =>
      ([Print ("ERROR: Could not extract text from AgentResult. Error: " +:+ e);
        Print "Please inspect the 'DEBUG: Attributes of agent_result' output above to determine the correct attribute for the response text."],
       "")
  end end end end end.

Definition path_marker : string := "The diagram is saved at: ".

Definition newline : string := String "010" EmptyString.

(** The characters the second [strip] takes off: backtick, quote and
    double quote. *)
Definition quote_chars : list ascii := ["`"; "'"; "034"]%char.

Section Cell.
(** The operating system, and Python's rendering of a list of names. *)
Variables (fs : os) (repr : list string → string).

(** From [diagram_path = None] to the end of the cell: what is shown and
    the final value of [diagram_path]. *)
Definition show_diagram (final_agent_response_text : string)
    : list shown * option string :=
  if decide (final_agent_response_text = "") then
    ([Print "No textual response extracted from the agent's result."], None)
  else
    match find path_marker final_agent_response_text with
    | None =>
        ([Print "Agent did not provide a diagram path in the expected format in its response."],
         None)
    | Some found =>
        let start_index := found + String.length path_marker in
        let end_index :=
          match find_from newline final_agent_response_text start_index with
          | Some e => e
          | None => String.length final_agent_response_text
          end in
        let diagram_path_raw :=
          strip (slice final_agent_response_text start_index end_index) in
        let diagram_path := strip_set quote_chars diagram_path_raw in
        (Print (newline +:+ "Extracted diagram path: '" +:+ diagram_path +:+ "'")
         :: (if negb (bool_decide (diagram_path = ""))
                && path_exists fs diagram_path
             then [Print ("Displaying diagram from: " +:+ diagram_path);
                   DisplayImage diagram_path]
             else if negb (bool_decide (diagram_path = "")) then
               [Print ("Diagram file not found at the specified path: "
                       +:+ diagram_path);
                Print "Please ensure the path is correct and the diagram generation tool is saving to this location relative to your notebook's CWD or an absolute path.";
                Print ("Current working directory: " +:+ getcwd fs)]
               ++ (let expected_dir := dirname fs diagram_path in
                   if path_exists fs expected_dir then
                     [Print ("Directory '" +:+ expected_dir +:+ "' exists.");
                      Print ("Files in '" +:+ expected_dir +:+ "': "
                             +:+ repr (listdir fs expected_dir))]
                   else
                     [Print ("Directory '" +:+ expected_dir
                             +:+ "' does NOT exist.")])
             else
               [Print "Could not find a valid diagram path string after extraction."]),
         Some diagram_path)
    end.

(** The cell from the agent's answer on. *)
Definition diagram_cell (agent_result : AgentResult)
    : list shown * option string :=
  let '(notes, final_agent_response_text) := extract_text agent_result in
  let '(shown_after, diagram_path) := show_diagram final_agent_response_text in
  (notes
   ++ [Print (newline +:+ "--- Agent's Full Response Text ---");
       Print final_agent_response_text;
       Print ("--- End of Agent's Full Response Text ---" +:+ newline)]
   ++ shown_after,
   diagram_path).

End Cell.

(** The files a run of the cell has displayed. *)
Definition displayed (l : list shown) : list string :=
  omap (λ x, match x with DisplayImage file => Some file | Print _ => None end) l.

(** A file system that holds one diagram. *)
Definition one_diagram : os :=
  mkOs (λ path, bool_decide (path = "/tmp/generated-diagrams/site.png"))
       "/home/sagemaker-user" (λ _, "/tmp/generated-diagrams")
       (λ _, ["site.png"]).

End Strands.

(** * Properties *)

(** ** The polling loop of [execute_athena_query] *)

Section PollingLoop.
Import Pandas Athena.

Implicit Types (poll : nat → QueryExecutionStatus) (fuel k n : nat).

Lemma terminal_spec state :
  terminal state = true ↔
  state = "SUCCEEDED" ∨ state = "FAILED" ∨ state = "CANCELLED".
Proof.
  unfold terminal, terminal_states. rewrite bool_decide_eq_true.
  rewrite !elem_of_cons, elem_of_nil. tauto.
Qed.

(** One more turn of the loop when the observed state is not terminal. *)
Lemma wait_for_query_pending_step fuel poll k :
  terminal (State (poll k)) = false →
  wait_for_query (S fuel) poll k =
    (λ '(slept, last), (Sleep 1 :: slept, last)) <$> wait_for_query fuel poll (S k).
Proof.
  intros Hk. cbn [wait_for_query]. rewrite Hk.
  destruct (wait_for_query fuel poll (S k)) as [[slept last]|]; reflexivity.
Qed.

Lemma wait_for_query_terminal_step fuel poll k :
  terminal (State (poll k)) = true →
  wait_for_query (S fuel) poll k = Some ([], poll k).
Proof. intros Hk. cbn [wait_for_query]. now rewrite Hk. Qed.

(** The loop leaves at the first terminal observation, after one sleep of
    one second per earlier observation. *)
Lemma wait_for_query_exit fuel poll k n :
  (∀ i, i < n → terminal (State (poll (k + i))) = false) →
  terminal (State (poll (k + n))) = true →
  n < fuel →
  wait_for_query fuel poll k = Some (replicate n (Sleep 1), poll (k + n)).
Proof.
  revert fuel k. induction n as [|n IH]; intros fuel k Hbefore Hn Hfuel.
  - destruct fuel as [|fuel]; [lia|].
    rewrite Nat.add_0_r in *. now apply wait_for_query_terminal_step.
  - destruct fuel as [|fuel]; [lia|].
    rewrite wait_for_query_pending_step.
    + rewrite (IH fuel (S k)).
      * cbn. do 3 f_equal. lia.
      * intros i Hi. replace (S k + i) with (k + S i) by lia.
        apply Hbefore. lia.
      * now replace (S k + n) with (k + S n) by lia.
      * lia.
    + specialize (Hbefore 0). rewrite Nat.add_0_r in Hbefore.
      apply Hbefore. lia.
Qed.

(** Whatever the loop returns was reached that way. *)
Lemma wait_for_query_inv fuel poll k slept last :
  wait_for_query fuel poll k = Some (slept, last) →
  ∃ n, n < fuel ∧
       (∀ i, i < n → terminal (State (poll (k + i))) = false) ∧
       terminal (State (poll (k + n))) = true ∧
       slept = replicate n (Sleep 1) ∧ last = poll (k + n).
Proof.
  revert k slept last. induction fuel as [|fuel IH]; intros k slept last Hrun.
  - discriminate.
  - destruct (terminal (State (poll k))) eqn:Hk.
    + rewrite wait_for_query_terminal_step in Hrun by done.
      injection Hrun as <- <-. exists 0. rewrite Nat.add_0_r.
      repeat split; try done; [lia | intros; lia].
    + rewrite wait_for_query_pending_step in Hrun by done.
      destruct (wait_for_query fuel poll (S k)) as [[slept' last']|] eqn:Hrec;
        [|discriminate].
      cbn in Hrun. injection Hrun as <- <-.
      destruct (IH _ _ _ Hrec) as (n & Hlt & Hbefore & Hn & -> & ->).
      exists (S n). replace (k + S n) with (S k + n) by lia.
      repeat split; try done; [lia|].
      intros [|i] Hi; [now rewrite Nat.add_0_r|].
      replace (k + S i) with (S k + i) by lia. apply Hbefore. lia.
Qed.


Lemma terminal_true state : terminal state = true ↔ state ∈ terminal_states.
Proof. unfold terminal. apply bool_decide_eq_true. Qed.

Lemma terminal_false state : terminal state = false ↔ state ∉ terminal_states.
Proof. unfold terminal. apply bool_decide_eq_false. Qed.





End PollingLoop.

(** ** What [execute_athena_query] does once the job is over *)

Section QueryOutcome.
Import Pandas Athena.

Lemma collect_rows_acc (acc : list (list string)) (rows : list Row) :
  foldl (λ results row, results ++ [row_values row]) acc rows
  = acc ++ (row_values <$> rows).
Proof.
  revert acc. induction rows as [|row rows IH]; intros acc; cbn.
  - now rewrite app_nil_r.
  - rewrite IH. now rewrite <- app_assoc.
Qed.

Lemma collect_pages_acc (acc : list (list string)) (pages : list Page) :
  foldl (λ results page,
           foldl (λ results row, results ++ [row_values row])
                 results (Rows page))
        acc pages
  = acc ++ (row_values <$> (pages ≫= Rows)).
Proof.
  revert acc. induction pages as [|page pages IH]; intros acc; cbn.
  - now rewrite app_nil_r.
  - rewrite IH, collect_rows_acc, fmap_app. now rewrite <- app_assoc.
Qed.

(** The rows are collected page after page, in the order of the pages. *)
Lemma collect_results_flat pages :
  collect_results pages = row_values <$> (pages ≫= Rows).
Proof. unfold collect_results. now rewrite collect_pages_acc. Qed.

(** The helper's result once the loop has left at the [n]-th poll. *)
Lemma execute_athena_query_exit athena_client query database s3_output n fuel :
  let query_execution_id :=
    start_query_execution athena_client query database s3_output in
  let poll := get_query_execution athena_client query_execution_id in
  (∀ i, i < n → State (poll i) ∉ terminal_states) →
  State (poll n) ∈ terminal_states →
  n < fuel →
  execute_athena_query athena_client fuel query database s3_output
  = if bool_decide (State (poll n) = "SUCCEEDED") then
      match collect_results (paginate athena_client query_execution_id) with
      | header :: rest =>
          match DataFrame_of_rows rest header with
          | inr df => Some (replicate n (Sleep 1) ++ [Display df], Returned)
          | inl message =>
              Some (replicate n (Sleep 1), Raised (ValueError message))
          end
      | [] =>
          Some (replicate n (Sleep 1) ++ [Print "Successfully executed."],
                Returned)
      end
    else
      Some (replicate n (Sleep 1),
            Raised (Exception
                      ("Query failed: "
                       +:+ default "No error message available"
                             (StateChangeReason (poll n))))).
Proof.
  intros id poll Hbefore Hn Hfuel. unfold execute_athena_query.
  fold id. fold poll.
  rewrite (wait_for_query_exit fuel poll 0 n); cbn; try done.
  - intros i Hi. now apply terminal_false, Hbefore.
  - now apply terminal_true.
Qed.

Lemma contains_suffix (prefix part : string) : contains (prefix +:+ part) part.
Proof.
  exists prefix, "". f_equal.
  induction part as [|c part IH]; [done|].
  change (String c part = String c (part +:+ "")). now f_equal.
Qed.

(** [pd.DataFrame] takes the rows when there are none, or when the
    widest of them is as wide as the list of names, and raises if not. *)
Lemma DataFrame_of_rows_fits (rows : list (list string)) (names : list string) :
  rows = [] ∨ length names = max_list (length <$> rows) →
  DataFrame_of_rows rows names
  = inr (mkDataFrame (Str <$> names)
           (pad (max_list (length <$> rows)) <$> rows)).
Proof.
  intros Hfit. destruct rows as [|row rows]; [done|].
  destruct Hfit as [|Hfit]; [done|].
  unfold DataFrame_of_rows. now rewrite decide_True.
Qed.

Lemma DataFrame_of_rows_misfit (rows : list (list string)) (names : list string) :
  ¬ (rows = [] ∨ length names = max_list (length <$> rows)) →
  DataFrame_of_rows rows names
  = inl (pretty (length names) +:+ " columns passed, passed data had "
         +:+ pretty (max_list (length <$> rows)) +:+ " columns").
Proof.
  intros Hmisfit. destruct rows as [|row rows]; [tauto|].
  unfold DataFrame_of_rows. rewrite decide_False; [done|tauto].
Qed.

(** Rows that all have one width need no padding. *)
Lemma max_list_constant (width : nat) (sizes : list nat) :
  sizes ≠ [] → (∀ size, size ∈ sizes → size = width) → max_list sizes = width.
Proof.
  induction sizes as [|size sizes IH]; [done|]. intros _ Hall. cbn.
  rewrite (Hall size) by apply list_elem_of_here.
  destruct sizes as [|size' sizes]; [cbn; lia|].
  rewrite IH; [lia|done|]. intros ? ?. apply Hall. now apply elem_of_cons; right.
Qed.

Lemma pad_full_rows (width : nat) (rows : list (list string)) :
  (∀ row, row ∈ rows → length row = width) →
  pad width <$> rows = (λ row, Some <$> row) <$> rows.
Proof.
  intros Hall. apply list_fmap_ext. intros _ row Hrow%list_elem_of_lookup_2.
  unfold pad. rewrite (Hall row Hrow), Nat.sub_diag. apply app_nil_r.
Qed.

(** C2, as it holds: once the job has reached its terminal state, the
    helper raises its own exception if and only if that state is not
    SUCCEEDED, which then is FAILED or CANCELLED; its message is "Query
    failed: " followed by the job's StateChangeReason, or by 'No error
    message available' when the reason is absent, so it contains the
    remote error message.  With SUCCEEDED the helper returns without an
    exception when no row or one row was collected or the widest row
    after the first is as wide as the first; if not, [pd.DataFrame] raises
    [ValueError]. *)
Theorem C2_query_failed_iff_not_succeeded
    athena_client query database s3_output n fuel :
  let query_execution_id :=
    start_query_execution athena_client query database s3_output in
  let poll := get_query_execution athena_client query_execution_id in
  let collected : list (list string) :=
    (λ row, (λ field, match VarCharValue field with
                      | Some value => value
                      | None => ""
                      end) <$> Data row)
      <$> (paginate athena_client query_execution_id ≫= Rows) in
  let widths_fit :=
    match collected with
    | [] => True
    | header :: rest =>
        rest = [] ∨ length header = max_list (length <$> rest)
    end in
  (∀ i, i < n → State (poll i) ∉ terminal_states) →
  State (poll n) ∈ terminal_states →
  n < fuel →
  ∃ trace outcome,
    execute_athena_query athena_client fuel query database s3_output
    = Some (trace, outcome) ∧
    ((∃ message, outcome = Raised (Exception message)) ↔
     State (poll n) ≠ "SUCCEEDED") ∧
    (State (poll n) ≠ "SUCCEEDED" ↔
     State (poll n) = "FAILED" ∨ State (poll n) = "CANCELLED") ∧
    (∀ message, outcome = Raised (Exception message) →
       let error_message :=
         match StateChangeReason (poll n) with
         | Some reason => reason
         | None => "No error message available"
         end in
       message = "Query failed: " +:+ error_message ∧
       contains message error_message) ∧
    (State (poll n) = "SUCCEEDED" → widths_fit → outcome = Returned) ∧
    (State (poll n) = "SUCCEEDED" → ¬ widths_fit →
     ∃ message, outcome = Raised (ValueError message)).
Proof.
  intros id poll collected widths_fit Hbefore Hn Hfuel.
  pose proof (execute_athena_query_exit
                athena_client query database s3_output n fuel Hbefore Hn Hfuel)
    as Hrun.
  cbn zeta in Hrun. fold id in Hrun. fold poll in Hrun.
  rewrite collect_results_flat in Hrun.
  change (row_values <$> paginate athena_client id ≫= Rows) with collected in Hrun.
  assert (State (poll n) ≠ "SUCCEEDED" ↔
          State (poll n) = "FAILED" ∨ State (poll n) = "CANCELLED") as Hstates.
  { apply terminal_true, terminal_spec in Hn.
    split.
    - intros Hne. destruct Hn as [|[|]]; [done|by left|by right].
    - intros [Heq|Heq]; rewrite Heq; discriminate. }
  case_bool_decide as Hstate.
  - assert (∃ trace outcome,
              execute_athena_query athena_client fuel query database s3_output
              = Some (trace, outcome) ∧
              (widths_fit → outcome = Returned) ∧
              (¬ widths_fit → ∃ message, outcome = Raised (ValueError message)) ∧
              (∀ message, outcome ≠ Raised (Exception message)))
      as (trace & outcome & Hrun' & Hfit & Hmisfit & Hother).
    { unfold widths_fit. destruct collected as [|header rest].
      - eexists _, Returned. split; [exact Hrun|]. repeat split; [tauto|done].
      - destruct (decide (rest = [] ∨ length header = max_list (length <$> rest)))
          as [Hyes|Hno].
        + rewrite (DataFrame_of_rows_fits _ _ Hyes) in Hrun.
          eexists _, Returned. split; [exact Hrun|]. repeat split; [tauto|done].
        + rewrite (DataFrame_of_rows_misfit _ _ Hno) in Hrun.
          eexists _, (Raised (ValueError _)). split; [exact Hrun|].
          repeat split; [tauto|eauto|done]. }
    exists trace, outcome. split; [exact Hrun'|].
    split.
    { split; [|done]. intros [message Hmessage]. now apply Hother in Hmessage. }
    split; [exact Hstates|]. split.
    { intros message Hmessage. now apply Hother in Hmessage. }
    split; intros _; [exact Hfit | exact Hmisfit].
  - eexists _, (Raised (Exception _)). split; [exact Hrun|].
    split; [split; [done | intros _; eauto]|].
    split; [exact Hstates|].
    split; [|done].
    intros message [= <-]. cbn zeta.
    destruct (StateChangeReason (poll n)); cbn;
      (split; [done | apply contains_suffix]).
Qed.

(** A job that fails with a reason: the helper raises with it. *)
Lemma C2_query_failed_iff_not_succeeded_witness :
  ∃ trace,
    execute_athena_query failing_service 3 "SELECT * FRM orders" "retail" "s3://out/"
    = Some (trace, Raised (Exception "Query failed: SYNTAX_ERROR: line 1:8")).
Proof.
  destruct (C2_query_failed_iff_not_succeeded
              failing_service "SELECT * FRM orders" "retail" "s3://out/" 1 3)
    as (trace & outcome & Hrun & Hraise & _ & Hmessage & _).
  - intros i Hi. cbn. rewrite decide_True by done. cbn.
    unfold terminal_states. rewrite !elem_of_cons, elem_of_nil.
    intros [|[|[|[]]]]; discriminate.
  - cbn. unfold terminal_states. rewrite !elem_of_cons. tauto.
  - lia.
  - exists trace. rewrite Hrun. do 2 f_equal.
    destruct Hraise as [_ [message ->]]; [discriminate|].
    do 2 f_equal. now destruct (Hmessage message eq_refl) as [-> _].
Defined.

(** The run on [ragged_service]: SUCCEEDED, and [pd.DataFrame] raises. *)
Lemma ragged_service_run :
  execute_athena_query ragged_service 1 "SELECT * FROM returns" "retail" "s3://out/"
  = Some ([], Raised (ValueError "2 columns passed, passed data had 3 columns")).
Proof. reflexivity. Qed.

(** The claim as first stated fails on that service: the job has
    SUCCEEDED and the helper ends with an exception. *)
Lemma C2_succeeded_can_raise_counterexample :
  ¬ ∀ athena_client query database s3_output n fuel,
      let poll :=
        get_query_execution athena_client
          (start_query_execution athena_client query database s3_output) in
      (∀ i, i < n → State (poll i) ∉ terminal_states) →
      State (poll n) ∈ terminal_states →
      n < fuel →
      ∃ trace outcome,
        execute_athena_query athena_client fuel query database s3_output
        = Some (trace, outcome) ∧
        ((∃ e, outcome = Raised e) ↔ State (poll n) ≠ "SUCCEEDED").
Proof.
  intros Hclaim.
  destruct (Hclaim ragged_service "SELECT * FROM returns" "retail" "s3://out/" 0 1)
    as (trace & outcome & Hrun & Hraises).
  - intros i Hi. lia.
  - cbn. apply list_elem_of_here.
  - lia.
  - rewrite ragged_service_run in Hrun. injection Hrun as <- <-.
    apply Hraises; [eauto | reflexivity].
Qed.

(** C8, as it holds: when the job has SUCCEEDED, every row of every
    page, in order, is turned into the list of its fields' VarCharValue,
    the empty string standing in for a missing one.  If there is no such
    row the only output is the line 'Successfully executed.'.  If there is
    one, the first becomes the column labels and the others the data of
    the frame that is displayed, each filled up with None to the width of
    the widest, provided there are no others or the widest of them is as
    wide as the first; if not, [pd.DataFrame] raises [ValueError] and
    nothing is displayed.  Rows that all have the width of the first are
    the data as they are. *)
Theorem C8_succeeded_rows_shape
    athena_client query database s3_output n fuel :
  let query_execution_id :=
    start_query_execution athena_client query database s3_output in
  let poll := get_query_execution athena_client query_execution_id in
  let collected : list (list string) :=
    (λ row, (λ field, match VarCharValue field with
                      | Some value => value
                      | None => ""
                      end) <$> Data row)
      <$> (paginate athena_client query_execution_id ≫= Rows) in
  (∀ i, i < n → State (poll i) ∉ terminal_states) →
  State (poll n) = "SUCCEEDED" →
  n < fuel →
  execute_athena_query athena_client fuel query database s3_output
  = Some
      match collected with
      | [] =>
          (replicate n (Sleep 1) ++ [Print "Successfully executed."], Returned)
      | header :: rest =>
          let width := max_list (length <$> rest) in
          if decide (rest = [] ∨ length header = width) then
            (replicate n (Sleep 1)
               ++ [Display
                     (mkDataFrame (Str <$> header)
                        ((λ row : list string, (Some <$> row)
                                   ++ replicate (width - length row) None)
                           <$> rest))],
             Returned)
          else
            (replicate n (Sleep 1),
             Raised (ValueError
                       (pretty (length header)
                        +:+ " columns passed, passed data had "
                        +:+ pretty width +:+ " columns")))
      end
  ∧ ∀ (header : list string) (rest : list (list string)),
      collected = header :: rest →
      (∀ row, row ∈ rest → length row = length header) →
      execute_athena_query athena_client fuel query database s3_output
      = Some (replicate n (Sleep 1)
                ++ [Display (mkDataFrame (Str <$> header)
                               ((λ row : list string, Some <$> row) <$> rest))],
              Returned).
Proof.
  intros id poll collected Hbefore Hn Hfuel.
  assert (State (poll n) ∈ terminal_states) as Hterminal.
  { rewrite Hn. unfold terminal_states. apply list_elem_of_here. }
  pose proof (execute_athena_query_exit
                athena_client query database s3_output n fuel
                Hbefore Hterminal Hfuel) as Hrun.
  cbn zeta in Hrun. fold id in Hrun. fold poll in Hrun.
  rewrite bool_decide_eq_true_2 in Hrun by done.
  rewrite collect_results_flat in Hrun.
  change (row_values <$> paginate athena_client id ≫= Rows) with collected in Hrun.
  rewrite Hrun. clear Hrun.
  split.
  - destruct collected as [|header rest]; [done|]. cbn zeta.
    destruct (decide (rest = [] ∨ length header = max_list (length <$> rest)))
      as [Hfit|Hfit].
    + now rewrite (DataFrame_of_rows_fits _ _ Hfit).
    + now rewrite (DataFrame_of_rows_misfit _ _ Hfit).
  - intros header rest -> Hwidths.
    destruct rest as [|row rest]; [done|].
    assert (max_list (length <$> row :: rest) = length header) as Hwidth.
    { apply max_list_constant; [done|].
      intros size (row' & -> & Hrow)%list_elem_of_fmap. now apply Hwidths. }
    rewrite DataFrame_of_rows_fits by (right; done).
    rewrite Hwidth. now rewrite (pad_full_rows _ _ Hwidths).
Qed.

(** Two pages, a header row and one data row with a missing value. *)
Lemma C8_succeeded_rows_shape_witness :
  execute_athena_query returns_service 1 "SELECT * FROM returns LIMIT 5"
    "retail" "s3://out/"
  = Some ([Display (mkDataFrame [Str "returned"; Str "order_id"]
                      [[Some "Yes"; Some ""]])],
          Returned).
Proof.
  apply (C8_succeeded_rows_shape
           returns_service "SELECT * FROM returns LIMIT 5" "retail" "s3://out/"
           0 1).
  - intros i Hi. lia.
  - reflexivity.
  - lia.
Defined.

(** The claim as first stated fails on [ragged_service]: rows were
    collected, and no frame is displayed. *)
Lemma C8_ragged_rows_counterexample :
  ¬ ∀ athena_client query database s3_output n fuel
      (header : list string) (rest : list (list string)),
      let query_execution_id :=
        start_query_execution athena_client query database s3_output in
      let poll := get_query_execution athena_client query_execution_id in
      (∀ i, i < n → State (poll i) ∉ terminal_states) →
      State (poll n) = "SUCCEEDED" →
      n < fuel →
      (λ row, (λ field, match VarCharValue field with
                        | Some value => value
                        | None => ""
                        end) <$> Data row)
        <$> (paginate athena_client query_execution_id ≫= Rows)
      = header :: rest →
      ∃ df,
        execute_athena_query athena_client fuel query database s3_output
        = Some (replicate n (Sleep 1) ++ [Display df], Returned).
Proof.
  intros Hclaim.
  destruct (Hclaim ragged_service "SELECT * FROM returns" "retail" "s3://out/"
              0 1 ["returned"; "order_id"] [["Yes"; "CA-1"; "APAC"]])
    as [df Hrun].
  - intros i Hi. lia.
  - reflexivity.
  - lia.
  - reflexivity.
  - now rewrite ragged_service_run in Hrun.
Qed.

End QueryOutcome.

(** ** The "already exists" handlers *)

Section AlreadyExists.
Import Python Cells.

Lemma create_bucket_cell_cases create_bucket s3_bucket_name region :
  create_bucket_cell create_bucket s3_bucket_name region
  = match create_bucket s3_bucket_name region with
    | Ok _ => (["S3 bucket created"], None)
    | Raise BucketAlreadyOwnedByYou => (["S3 bucket already exists"], None)
    | Raise e => ([], Some e)
    end.
Proof.
  unfold create_bucket_cell.
  destruct (create_bucket s3_bucket_name region) as [u|e]; [done|].
  now destruct e.
Qed.

Lemma create_database_cell_cases bound create_database db_name :
  create_database_cell bound (Ok ()) create_database db_name
  = match create_database db_name with
    | Ok _ => (["Successfully created database: " +:+ db_name], None)
    | Raise AlreadyExistsException =>
        (["Database " +:+ db_name +:+ " already exists"], None)
    | Raise e => ([], Some e)
    end.
Proof.
  unfold create_database_cell.
  destruct (create_database db_name) as [u|e]; [done|].
  now destruct e.
Qed.

(** C6: in the bucket cell a [BucketAlreadyOwnedByYou] raised by
    [create_bucket] ends as the printed line 'S3 bucket already exists'
    and nothing escapes; an exception escapes the cell exactly when
    [create_bucket] raised it and it is of another class.  The same holds
    for the database cell with [AlreadyExistsException] raised by
    [create_database] and the line 'Database <name> already exists'.  A
    call that succeeds prints the success line. *)
Theorem C6_already_exists_is_printed :
  (∀ create_bucket s3_bucket_name region,
     let call := create_bucket s3_bucket_name region in
     let outcome := create_bucket_cell create_bucket s3_bucket_name region in
     (call = Raise BucketAlreadyOwnedByYou →
      outcome = (["S3 bucket already exists"], None)) ∧
     (∀ e, outcome.2 = Some e ↔ call = Raise e ∧ e ≠ BucketAlreadyOwnedByYou) ∧
     (∀ response, call = Ok response →
      outcome = (["S3 bucket created"], None))) ∧
  (∀ glue_client_bound create_database db_name,
     let call := create_database db_name in
     let outcome :=
       create_database_cell glue_client_bound (Ok ()) create_database db_name in
     (call = Raise AlreadyExistsException →
      outcome = (["Database " +:+ db_name +:+ " already exists"], None)) ∧
     (∀ e, outcome.2 = Some e ↔ call = Raise e ∧ e ≠ AlreadyExistsException) ∧
     (∀ response, call = Ok response →
      outcome = (["Successfully created database: " +:+ db_name], None))).
Proof.
  split.
  - intros create_bucket s3_bucket_name region call outcome.
    subst outcome. rewrite create_bucket_cell_cases. fold call.
    destruct call as [u|e].
    + cbn. repeat split; try done. intros [[=] _].
    + destruct e; cbn; (split; [done|]); (split; [|done]); intros e';
        (split; [intros [= <-]; try done; split; done
                |intros [[= <-] Hne]; done]).
  - intros bound create_database db_name call outcome.
    subst outcome. rewrite create_database_cell_cases. fold call.
    destruct call as [u|e].
    + cbn. repeat split; try done. intros [[=] _].
    + destruct e; cbn; (split; [done|]); (split; [|done]); intros e';
        (split; [intros [= <-]; try done; split; done
                |intros [[= <-] Hne]; done]).
Qed.

(** A bucket that is already ours, and a database call that is refused
    for another reason. *)
Lemma C6_already_exists_is_printed_witness :
  create_bucket_cell (λ _ _, Raise BucketAlreadyOwnedByYou)
    "111122223333-us-west-2-s3-retail-db-for-agent-example" "us-west-2"
  = (["S3 bucket already exists"], None)
  ∧ (create_database_cell false (Ok ())
       (λ _, Raise (ClientError "AccessDeniedException")) "retail").2
    = Some (ClientError "AccessDeniedException").
Proof.
  split.
  - apply (proj1 C6_already_exists_is_printed). reflexivity.
  - apply (proj2 C6_already_exists_is_printed). split; [reflexivity|discriminate].
Defined.

End AlreadyExists.

(** ** Column labels after [load_excel_to_df] *)

Section StringMethods.
Import Python.

Lemma append_cons (c : ascii) (s t : string) :
  String c s +:+ t = String c (s +:+ t).
Proof. reflexivity. Qed.

Lemma append_empty_l (t : string) : "" +:+ t = t.
Proof. reflexivity. Qed.

Lemma replace_append old new (s t : string) :
  replace old new (s +:+ t) = replace old new s +:+ replace old new t.
Proof.
  induction s as [|c s IH]; [done|].
  rewrite append_cons. cbn [replace]. now rewrite IH, append_cons.
Qed.

Lemma lower_append (s t : string) : lower (s +:+ t) = lower s +:+ lower t.
Proof.
  induction s as [|c s IH]; [done|].
  rewrite append_cons. cbn [lower]. now rewrite IH, append_cons.
Qed.

(** After the replacement the old character is gone, provided it is not
    put back. *)
Lemma replace_removes old new (s : string) :
  new ≠ old → old ∉ chars (replace old new s).
Proof.
  intros Hne. induction s as [|c s IH]; cbn.
  - apply not_elem_of_nil.
  - rewrite not_elem_of_cons. split; [|done].
    case_decide; congruence.
Qed.

Lemma lstrip_chars (s : string) c : c ∈ chars (lstrip s) → c ∈ chars s.
Proof.
  induction s as [|d s IH]; cbn; [done|].
  destruct (isspace d); [|done].
  intros Hc. apply elem_of_cons. right. now apply IH.
Qed.

Lemma rstrip_chars (s : string) c : c ∈ chars (rstrip s) → c ∈ chars s.
Proof.
  revert c. induction s as [|d s IH]; intros c; cbn; [done|].
  destruct (rstrip s) as [|e kept] eqn:Hkept.
  - destruct (isspace d); cbn; [by rewrite elem_of_nil|].
    rewrite elem_of_cons, elem_of_nil, elem_of_cons. tauto.
  - cbn. rewrite !elem_of_cons. intros [->|Hc]; [by left|].
    right. apply IH. cbn. now rewrite elem_of_cons.
Qed.

Lemma strip_chars (s : string) c : c ∈ chars (strip s) → c ∈ chars s.
Proof. intros Hc. now apply lstrip_chars, rstrip_chars. Qed.

Lemma lower_chars (s : string) : chars (lower s) = lower_char <$> chars s.
Proof. induction s as [|c s IH]; cbn; [done|]. now rewrite IH. Qed.

(** Lowering a character never yields a capital, and yields a space only
    from a space. *)
Lemma lower_char_not_upper c : isupper (lower_char c) = false.
Proof. destruct c as [[] [] [] [] [] [] [] []]; reflexivity. Qed.

(** The capitals among the code points below 256, by their codes. *)
Lemma isupper_spec c :
  isupper c = true ↔
  (65 ≤ code c ≤ 90)%N ∨ (192 ≤ code c ≤ 222 ∧ code c ≠ 215)%N.
Proof.
  unfold isupper. cbn zeta.
  rewrite orb_true_iff, !andb_true_iff, negb_true_iff, !N.leb_le, N.eqb_neq.
  tauto.
Qed.

Lemma lower_char_space c : lower_char c = " "%char → c = " "%char.
Proof. destruct c as [[] [] [] [] [] [] [] []]; vm_compute; congruence. Qed.

Lemma lower_char_fixed c : isupper c = false → lower_char c = c.
Proof. unfold lower_char. now intros ->. Qed.

Lemma lower_lower (s : string) : lower (lower s) = lower s.
Proof.
  induction s as [|c s IH]; cbn; [done|].
  now rewrite IH, (lower_char_fixed _ (lower_char_not_upper c)).
Qed.

(** A string that starts with a character that is no whitespace keeps
    its start, and one that ends with such a character keeps its end. *)
Lemma lstrip_keeps c (s : string) :
  isspace c = false → lstrip (String c s) = String c s.
Proof. intros Hc. cbn. now rewrite Hc. Qed.

Lemma rstrip_keeps c (s : string) :
  isspace c = false → rstrip (s +:+ String c "") = s +:+ String c "".
Proof.
  intros Hc. induction s as [|d s IH].
  - rewrite append_empty_l. cbn. now rewrite Hc.
  - rewrite append_cons. cbn [rstrip]. rewrite IH.
    destruct s as [|e s]; reflexivity.
Qed.

Lemma rstrip_cons_keeps c (s : string) :
  isspace c = false → rstrip (String c s) = String c (rstrip s).
Proof. intros Hc. cbn. rewrite Hc. now destruct (rstrip s). Qed.

Lemma lstrip_append_keeps c (s t : string) :
  isspace c = false → lstrip (s +:+ String c t) = lstrip s +:+ String c t.
Proof.
  intros Hc. induction s as [|d s IH].
  - rewrite !append_empty_l. now apply lstrip_keeps.
  - rewrite append_cons. cbn [lstrip].
    destruct (isspace d); [done|]. now rewrite append_cons.
Qed.

(** What [lstrip] and [rstrip] drop is whitespace, and what they keep
    neither starts nor ends with whitespace. *)
Lemma lstrip_decompose (s : string) :
  ∃ pre, s = pre +:+ lstrip s ∧ ∀ c, c ∈ chars pre → isspace c = true.
Proof.
  induction s as [|d s (pre & Hs & Hpre)].
  - exists "". split; [done|]. intros c Hc. now apply elem_of_nil in Hc.
  - cbn [lstrip]. destruct (isspace d) eqn:Hd.
    + exists (String d pre). rewrite append_cons. split; [now f_equal|].
      intros c [-> | Hc]%elem_of_cons; [done | now apply Hpre].
    + exists "". split; [done|]. intros c Hc. now apply elem_of_nil in Hc.
Qed.

Lemma rstrip_decompose (s : string) :
  ∃ post, s = rstrip s +:+ post ∧ ∀ c, c ∈ chars post → isspace c = true.
Proof.
  induction s as [|d s (post & Hs & Hpost)].
  - exists "". split; [done|]. intros c Hc. now apply elem_of_nil in Hc.
  - cbn [rstrip]. destruct (rstrip s) as [|e kept] eqn:Hkept.
    + rewrite append_empty_l in Hs. subst post.
      destruct (isspace d) eqn:Hd.
      * exists (String d s). split; [done|].
        intros c [-> | Hc]%elem_of_cons; [done | now apply Hpost].
      * exists s. now split.
    + exists post. split; [|done]. rewrite append_cons. now f_equal.
Qed.

Lemma lstrip_first (s : string) c :
  chars (lstrip s) !! 0 = Some c → isspace c = false.
Proof.
  induction s as [|d s IH]; cbn [lstrip]; [done|].
  destruct (isspace d) eqn:Hd; [done|]. cbn. congruence.
Qed.

Lemma rstrip_first (s : string) c :
  chars (rstrip s) !! 0 = Some c → chars s !! 0 = Some c.
Proof.
  destruct s as [|d s]; [done|]. cbn [rstrip].
  destruct (rstrip s); [|done]. now destruct (isspace d).
Qed.

Lemma rstrip_last (s : string) c :
  last (chars (rstrip s)) = Some c → isspace c = false.
Proof.
  induction s as [|d s IH]; cbn [rstrip]; [done|].
  destruct (rstrip s) as [|e kept].
  - destruct (isspace d) eqn:Hd; [done|]. cbn. congruence.
  - cbn [chars] in *. now rewrite last_cons_cons.
Qed.

Lemma strip_decompose (s : string) :
  ∃ pre post,
    s = pre +:+ strip s +:+ post ∧
    (∀ c, c ∈ chars pre → isspace c = true) ∧
    (∀ c, c ∈ chars post → isspace c = true).
Proof.
  destruct (lstrip_decompose s) as (pre & Hs & Hpre).
  destruct (rstrip_decompose (lstrip s)) as (post & Hkept & Hpost).
  exists pre, post. unfold strip. now rewrite <- Hkept.
Qed.

Lemma strip_first (s : string) c :
  chars (strip s) !! 0 = Some c → isspace c = false.
Proof. intros Hc. now apply rstrip_first, lstrip_first in Hc. Qed.

Lemma strip_last (s : string) c :
  last (chars (strip s)) = Some c → isspace c = false.
Proof. apply rstrip_last. Qed.

(** Lowering keeps whitespace whitespace and the rest the rest. *)
Lemma isspace_lower_char c : isspace (lower_char c) = isspace c.
Proof. destruct c as [[] [] [] [] [] [] [] []]; reflexivity. Qed.

Lemma lower_first (s : string) c :
  chars (lower s) !! 0 = Some c → ∃ d, chars s !! 0 = Some d ∧ c = lower_char d.
Proof. destruct s as [|d s]; [done|]. cbn. intros [= <-]. eauto. Qed.

Lemma lower_last (s : string) c :
  last (chars (lower s)) = Some c → ∃ d, last (chars s) = Some d ∧ c = lower_char d.
Proof.
  rewrite lower_chars, fmap_last.
  destruct (last (chars s)) as [d|]; [|done]. cbn. intros [= <-]. eauto.
Qed.

(** The three steps applied to one label. *)
Lemma normalise_chars (name : string) c :
  c ∈ chars (lower (strip (replace " " "_" name))) →
  isupper c = false ∧ c ≠ " "%char.
Proof.
  rewrite lower_chars, list_elem_of_fmap. intros (d & -> & Hd).
  split; [apply lower_char_not_upper|].
  intros Hspace. apply lower_char_space in Hspace as ->.
  apply strip_chars in Hd. now apply replace_removes in Hd.
Qed.

(** A space in front, or at the end, is an underscore by the time the
    strip runs, and stays. *)
Lemma normalise_leading_space (name : string) :
  lower (strip (replace " " "_" (" " +:+ name)))
  = "_" +:+ lower (rstrip (replace " " "_" name)).
Proof.
  rewrite replace_append. change (replace " " "_" " ") with "_".
  unfold strip.
  change ("_" +:+ replace " " "_" name) with (String "_" (replace " " "_" name)).
  rewrite lstrip_keeps by reflexivity.
  now rewrite rstrip_cons_keeps by reflexivity.
Qed.

Lemma normalise_trailing_space (name : string) :
  lower (strip (replace " " "_" (name +:+ " ")))
  = lower (lstrip (replace " " "_" name)) +:+ "_".
Proof.
  rewrite replace_append. change (replace " " "_" " ") with (String "_" "").
  unfold strip.
  rewrite lstrip_append_keeps by reflexivity.
  rewrite rstrip_keeps by reflexivity.
  now rewrite lower_append.
Qed.

End StringMethods.

Section ExcelLoader.
Import Python Pandas Excel.
Context {cell : Type}.

Implicit Types (sheet : DataFrame cell) (others : @ExcelFile cell).
Local Abbreviation objects := (gmap (string * string) (@ExcelFile cell)).

(** The sheet named by [sheet_names[0]] is the first one. *)
Lemma read_excel_first first_name sheet others :
  let excel_file := (first_name, sheet) :: others in
  sheet_names excel_file !! 0 = Some first_name ∧
  read_excel excel_file first_name = Some sheet.
Proof. cbn. now rewrite decide_True. Qed.

(** The [.str] accessor is there exactly for an index with a [str] in
    it, and a [.str] method leaves such an index one. *)
Lemma has_str_spec (index : list label) :
  has_str index = true ↔ ∃ name, Str name ∈ index.
Proof.
  induction index as [|l index IH]; cbn.
  - split; [done|]. intros [name Hin]. now apply elem_of_nil in Hin.
  - rewrite orb_true_iff, IH. split.
    + intros [Hl|[name Hin]].
      * destruct l as [name| |]; try done. exists name. apply list_elem_of_here.
      * exists name. now apply list_elem_of_further.
    + intros [name [<- | Hin]%elem_of_cons]; [by left | right; eauto].
Qed.

Lemma has_str_str_map (method : string → string) (index : list label) :
  has_str (str_map method <$> index) = has_str index.
Proof.
  unfold has_str. induction index as [|l index IH]; [done|].
  rewrite fmap_cons. cbn [existsb]. rewrite IH. now destruct l.
Qed.

Lemma str_map_compose (f g : string → string) (index : list label) :
  str_map g <$> (str_map f <$> index) = str_map (λ name, g (f name)) <$> index.
Proof.
  rewrite <- list_fmap_compose. apply list_fmap_ext.
  intros i l _. now destruct l.
Qed.

Lemma str_method_has_str (method : string → string) (index : list label) :
  has_str index = true → str_method method index = Ok (str_map method <$> index).
Proof. unfold str_method. now intros ->. Qed.

(** The loader on a workbook with at least one sheet. *)
Lemma load_excel_to_df_first (s3 : objects)
    source_bucket source_key first_name sheet others :
  s3 !! (source_bucket, source_key) = Some ((first_name, sheet) :: others) →
  let df :=
    mkDataFrame
      (str_map (λ name, lower (strip (replace " " "_" name))) <$> columns sheet)
      (data sheet) in
  load_excel_to_df s3 source_bucket source_key
  = if has_str (columns sheet) then Ok (head 5 df, df) else Raise AttributeError.
Proof.
  intros Hobject. unfold load_excel_to_df, ExcelFile in *. rewrite Hobject. cbn.
  rewrite decide_True by done.
  destruct (has_str (columns sheet)) eqn:Hstr.
  - rewrite str_method_has_str by done. cbn [set_columns columns data].
    rewrite str_method_has_str by now rewrite has_str_str_map.
    cbn [set_columns columns data].
    rewrite str_method_has_str by now rewrite !has_str_str_map.
    cbn [set_columns columns data].
    now rewrite !str_map_compose.
  - unfold str_method at 1. now rewrite Hstr.
Qed.

(** A load that returns has read a first sheet with a [str] label. *)
Lemma load_excel_to_df_Ok (s3 : objects) source_bucket source_key
    (printed df : DataFrame cell) :
  load_excel_to_df s3 source_bucket source_key = Ok (printed, df) →
  ∃ first_name sheet others,
    s3 !! (source_bucket, source_key) = Some ((first_name, sheet) :: others) ∧
    has_str (columns sheet) = true ∧
    df = mkDataFrame
           (str_map (λ name, lower (strip (replace " " "_" name)))
              <$> columns sheet)
           (data sheet) ∧
    printed = head 5 df.
Proof.
  intros Hload.
  destruct (s3 !! (source_bucket, source_key))
    as [[|[first_name sheet] others]|] eqn:Hobject.
  - unfold load_excel_to_df, ExcelFile in *. now rewrite Hobject in Hload.
  - rewrite (load_excel_to_df_first _ _ _ _ _ _ Hobject) in Hload.
    cbn zeta in Hload. destruct (has_str (columns sheet)) eqn:Hstr; [|done].
    injection Hload as <- <-. now exists first_name, sheet, others.
  - unfold load_excel_to_df, ExcelFile in *. now rewrite Hobject in Hload.
Qed.

(** C9, as it holds: the load of a workbook succeeds when a label of its
    first sheet is a [str], and ends in [AttributeError] when none is.
    When it succeeds, a label that is a [str] comes back changed by
    replacing each space with an underscore, then stripping whitespace at
    both ends, then lowering, and a label that is no [str] comes back as
    NaN.  The strip takes off a run of whitespace at each end and leaves a
    text that neither starts nor ends with whitespace.  Hence a returned
    label that is a [str] is left as it is by lowering, has none of the
    capital letters below code point 256 (A to Z, and U+00C0 to U+00DE
    but for the multiplication sign), has no space, and neither starts nor
    ends with whitespace; and because the spaces are
    replaced before the strip, a label written with a space in front
    comes back with an underscore in front, and one written with a space
    at the end comes back with an underscore at the end. *)
Theorem C9_string_labels_normalised
    (s3 : objects) source_bucket source_key first_name sheet others :
  s3 !! (source_bucket, source_key) = Some ((first_name, sheet) :: others) →
  ((∃ name, Str name ∈ columns sheet) →
   ∃ df, load_excel_to_df s3 source_bucket source_key = Ok (head 5 df, df)) ∧
  ((¬ ∃ name, Str name ∈ columns sheet) →
   load_excel_to_df s3 source_bucket source_key = Raise AttributeError) ∧
  ∀ printed df,
    load_excel_to_df s3 source_bucket source_key = Ok (printed, df) →
    length (columns df) = length (columns sheet) ∧
    (∀ i name,
       columns sheet !! i = Some (Str name) →
       columns df !! i = Some (Str (lower (strip (replace " " "_" name)))) ∧
       ∃ pre kept post,
         replace " " "_" name = pre +:+ kept +:+ post ∧
         (∀ c, c ∈ chars pre → isspace c = true) ∧
         (∀ c, c ∈ chars post → isspace c = true) ∧
         (∀ c, chars kept !! 0 = Some c → isspace c = false) ∧
         (∀ c, last (chars kept) = Some c → isspace c = false) ∧
         columns df !! i = Some (Str (lower kept))) ∧
    (∀ i l,
       columns sheet !! i = Some l → is_str l = false →
       columns df !! i = Some NaN) ∧
    (∀ name, Str name ∈ columns df →
       lower name = name ∧
       (∀ c, c ∈ chars name →
          ¬ (65 ≤ code c ≤ 90)%N ∧ ¬ (192 ≤ code c ≤ 222 ∧ code c ≠ 215)%N) ∧
       (" "%char ∉ chars name) ∧
       (∀ c, chars name !! 0 = Some c → isspace c = false) ∧
       (∀ c, last (chars name) = Some c → isspace c = false)) ∧
    (∀ i name,
       columns sheet !! i = Some (Str (" " +:+ name)) →
       columns df !! i
       = Some (Str ("_" +:+ lower (rstrip (replace " " "_" name))))) ∧
    (∀ i name,
       columns sheet !! i = Some (Str (name +:+ " ")) →
       columns df !! i
       = Some (Str (lower (lstrip (replace " " "_" name)) +:+ "_"))).
Proof.
  intros Hobject.
  rewrite (load_excel_to_df_first _ _ _ _ _ _ Hobject). cbn zeta.
  split; [|split].
  - intros Hstr%has_str_spec. rewrite Hstr. eauto.
  - intros Hnone. destruct (has_str (columns sheet)) eqn:Hstr; [|done].
    now apply has_str_spec in Hstr.
  - intros printed df Hload.
    destruct (has_str (columns sheet)); [|done].
    injection Hload as _ <-. cbn [columns].
    split; [apply length_fmap|]. split; [|split; [|split; [|split]]].
    + intros i name Hi. rewrite list_lookup_fmap, Hi. cbn. split; [done|].
      destruct (strip_decompose (replace " " "_" name))
        as (pre & post & Hparts & Hpre & Hpost).
      exists pre, (strip (replace " " "_" name)), post.
      repeat split; try done.
      * apply strip_first.
      * apply strip_last.
    + intros i l Hi Hl. rewrite list_lookup_fmap, Hi. now destruct l.
    + intros name ([source| |] & Hname & _)%list_elem_of_fmap; try done.
      injection Hname as ->. split; [apply lower_lower|].
      split.
      { intros c [Hc _]%normalise_chars.
        pose proof (isupper_spec c) as Hupper. rewrite Hc in Hupper.
        split; intros Hrange;
          [assert (false = true) by (apply Hupper; now left)
          |assert (false = true) by (apply Hupper; now right)]; done. }
      repeat split.
      * intros Hc. now apply normalise_chars in Hc.
      * intros c (d & Hd%strip_first & ->)%lower_first.
        now rewrite isspace_lower_char.
      * intros c (d & Hd%strip_last & ->)%lower_last.
        now rewrite isspace_lower_char.
    + intros i name Hi. rewrite list_lookup_fmap, Hi. cbn.
      now rewrite normalise_leading_space.
    + intros i name Hi. rewrite list_lookup_fmap, Hi. cbn.
      now rewrite normalise_trailing_space.
Qed.

(** C10: the loader asks for the sheet named [sheet_names[0]], which is
    the first sheet, and its result is a function of that sheet alone:
    two workbooks with the same first sheet give the same result, whatever
    their other sheets are.  When a label of the first sheet is a [str]
    the result is a frame, and the data of every frame returned is that of
    the first sheet. *)
Theorem C10_only_first_sheet
    (s3 s3' : objects) source_bucket source_key first_name sheet others others' :
  s3 !! (source_bucket, source_key) = Some ((first_name, sheet) :: others) →
  s3' !! (source_bucket, source_key) = Some ((first_name, sheet) :: others') →
  sheet_names ((first_name, sheet) :: others) !! 0 = Some first_name ∧
  read_excel ((first_name, sheet) :: others) first_name = Some sheet ∧
  load_excel_to_df s3 source_bucket source_key
  = load_excel_to_df s3' source_bucket source_key ∧
  ((∃ name, Str name ∈ columns sheet) →
   ∃ df, load_excel_to_df s3 source_bucket source_key = Ok (head 5 df, df)) ∧
  ∀ printed df,
    load_excel_to_df s3 source_bucket source_key = Ok (printed, df) →
    printed = head 5 df ∧ data df = data sheet.
Proof.
  intros Hobject Hobject'.
  split; [apply read_excel_first|]. split; [apply read_excel_first|].
  rewrite (load_excel_to_df_first _ _ _ _ _ _ Hobject).
  rewrite (load_excel_to_df_first _ _ _ _ _ _ Hobject').
  split; [done|]. cbn zeta. split.
  - intros Hstr%has_str_spec. rewrite Hstr. eauto.
  - intros printed df Hload. destruct (has_str (columns sheet)); [|done].
    now injection Hload as <- <-.
Qed.

End ExcelLoader.

Section ExcelLoaderRuns.
Import Python Pandas Excel.

(** The labels 'Row ID', ' Order Date ' and a tab before 'Ship Mode'. *)
Lemma C9_string_labels_normalised_witness :
  ∃ df,
    load_excel_to_df orders_bucket "aws-bigdata-blog" "orders.xlsx"
    = Ok (head 5 df, df) ∧
    columns df !! 1 = Some (Str "_order_date_") ∧
    columns df !! 2 = Some (Str "ship_mode").
Proof.
  destruct (C9_string_labels_normalised
              orders_bucket "aws-bigdata-blog" "orders.xlsx"
              "Orders" orders_sheet
              [("Notes", mkDataFrame [Str "Remark"] [[7%Z]])])
    as (Hloads & _ & Hlabels).
  - reflexivity.
  - destruct Hloads as [df Hload].
    { exists "Row ID". apply list_elem_of_here. }
    exists df. split; [exact Hload|].
    destruct (Hlabels _ _ Hload) as (_ & Hstr & _).
    split.
    + now destruct (Hstr 1 " Order Date ") as [-> _].
    + now destruct (Hstr 2 (String "009" "Ship Mode")) as [-> _].
Defined.

(** A sheet with the header cells 'Order ID' and 2023: the load
    succeeds and the second label comes back as NaN. *)
Lemma sales_sheet_run :
  load_excel_to_df sales_bucket "retail" "sales.xlsx"
  = Ok (mkDataFrame [Str "order_id"; NaN] [[1; 250]; [2; 90]]%Z,
        mkDataFrame [Str "order_id"; NaN] [[1; 250]; [2; 90]]%Z).
Proof. reflexivity. Qed.

(** A sheet whose header cells are all numbers: the first [.str] raises. *)
Lemma years_sheet_run :
  load_excel_to_df sales_bucket "retail" "years.xlsx" = Raise AttributeError.
Proof. reflexivity. Qed.

(** The claim as first stated fails on the first of these workbooks: it
    is loaded, and its second label is not the source label changed by
    the three steps, nor any text at all. *)
Lemma C9_number_label_counterexample :
  ¬ ∀ (s3 : gmap (string * string) (@ExcelFile Z))
      source_bucket source_key first_name sheet others printed df,
      s3 !! (source_bucket, source_key) = Some ((first_name, sheet) :: others) →
      load_excel_to_df s3 source_bucket source_key = Ok (printed, df) →
      ∀ i l,
        columns df !! i = Some l →
        ∃ name,
          columns sheet !! i = Some (Str name) ∧
          l = Str (lower (strip (replace " " "_" name))).
Proof.
  intros Hclaim.
  destruct (Hclaim sales_bucket "retail" "sales.xlsx" "Sales" sales_sheet []
              _ _ eq_refl sales_sheet_run 1 NaN eq_refl)
    as (name & _ & Hname).
  discriminate Hname.
Qed.

(** The same first sheet with and without a second sheet. *)
Lemma C10_only_first_sheet_witness :
  load_excel_to_df orders_bucket "aws-bigdata-blog" "orders.xlsx"
  = load_excel_to_df
      ({[ ("aws-bigdata-blog", "orders.xlsx") := [("Orders", orders_sheet)] ]})
      "aws-bigdata-blog" "orders.xlsx".
Proof.
  apply (C10_only_first_sheet
           orders_bucket
           ({[ ("aws-bigdata-blog", "orders.xlsx") := [("Orders", orders_sheet)] ]})
           "aws-bigdata-blog" "orders.xlsx" "Orders" orders_sheet
           [("Notes", mkDataFrame [Str "Remark"] [[7%Z]])] []).
  - reflexivity.
  - reflexivity.
Defined.

End ExcelLoaderRuns.

(** ** The filter builder *)

Section FilterLeaves.
Import MetadataFilter.

Implicit Types (m : chunk) (field : string).

Lemma starts_with_spec (prefix s : string) :
  starts_with prefix s = true ↔ ∃ rest, s = prefix +:+ rest.
Proof.
  revert s. induction prefix as [|p prefix IH]; intros s.
  - split; [|done]. intros _. now exists s.
  - destruct s as [|c s]; cbn.
    + split; [done|]. intros [rest Hrest]. discriminate.
    + rewrite andb_true_iff, bool_decide_eq_true, IH. split.
      * intros [-> [rest ->]]. now exists rest.
      * intros [rest Hrest]. rewrite append_cons in Hrest.
        injection Hrest as -> ->. eauto.
Qed.

Lemma satisfies_equals m field bound :
  satisfies m (leaf field equals bound) = true ↔ m !! field = Some bound.
Proof.
  cbn. destruct (m !! field) as [actual|]; [|done].
  cbn. rewrite bool_decide_eq_true. split; congruence.
Qed.

Lemma satisfies_at_least m field lo :
  satisfies m (leaf field greaterThanOrEquals (Number lo)) = true ↔
  ∃ actual, m !! field = Some (Number actual) ∧ (lo ≤ actual)%Z.
Proof.
  cbn. destruct (m !! field) as [[text|actual]|]; cbn.
  - split; [done|]. intros (? & [=] & _).
  - rewrite bool_decide_eq_true. split; [eauto|].
    now intros (? & [= <-] & ?).
  - split; [done|]. intros (? & [=] & _).
Qed.

Lemma satisfies_at_most m field hi :
  satisfies m (leaf field lessThanOrEquals (Number hi)) = true ↔
  ∃ actual, m !! field = Some (Number actual) ∧ (actual ≤ hi)%Z.
Proof.
  cbn. destruct (m !! field) as [[text|actual]|]; cbn.
  - split; [done|]. intros (? & [=] & _).
  - rewrite bool_decide_eq_true. split; [eauto|].
    now intros (? & [= <-] & ?).
  - split; [done|]. intros (? & [=] & _).
Qed.

Lemma satisfies_starts_with m field prefix :
  satisfies m (leaf field startsWith (Text prefix)) = true ↔
  ∃ rest, m !! field = Some (Text (prefix +:+ rest)).
Proof.
  cbn. destruct (m !! field) as [[text|actual]|]; cbn.
  - rewrite starts_with_spec. split.
    + intros [rest ->]. eauto.
    + intros [rest [= ->]]. eauto.
  - split; [done|]. intros (? & [=]).
  - split; [done|]. intros (? & [=]).
Qed.

(** An OR-set of year equalities asks for the year to be in the set. *)
Lemma satisfies_year_set m (ys : list Z) :
  satisfies m (orAll (year_equals <$> ys)) = true ↔
  ∃ actual, m !! "year" = Some (Number actual) ∧ actual ∈ ys.
Proof.
  cbn [satisfies]. rewrite existsb_exists. split.
  - intros (f & Hin & Hsat).
    apply list_elem_of_In, list_elem_of_fmap in Hin as (y & -> & Hy).
    apply satisfies_equals in Hsat. eauto.
  - intros (actual & Hyear & Hin). exists (year_equals actual). split.
    + apply list_elem_of_In, list_elem_of_fmap. eauto.
    + now apply satisfies_equals.
Qed.

(** The smallest and the largest year of a list bound a number exactly
    when some listed year does. *)
Lemma smallest_le (y : Z) (more : list Z) (actual : Z) :
  (foldr Z.min y more ≤ actual)%Z ↔ ∃ lo, lo ∈ y :: more ∧ (lo ≤ actual)%Z.
Proof.
  induction more as [|z more IH]; cbn [foldr].
  - split.
    + intros Hle. exists y. split; [apply list_elem_of_here|done].
    + intros (lo & Hin & Hle). apply list_elem_of_singleton in Hin. lia.
  - rewrite Z.min_le_iff, IH. split.
    + intros [Hle|(lo & Hin & Hle)].
      * exists z. split; [|done]. apply elem_of_cons. right. apply list_elem_of_here.
      * exists lo. split; [|done].
        apply elem_of_cons in Hin as [->|Hin]; [apply list_elem_of_here|].
        do 2 (apply elem_of_cons; right). done.
    + intros (lo & Hin & Hle).
      apply elem_of_cons in Hin as [->|Hin].
      * right. exists y. split; [apply list_elem_of_here|done].
      * apply elem_of_cons in Hin as [->|Hin]; [by left|].
        right. exists lo. split; [|done]. apply elem_of_cons. now right.
Qed.

Lemma largest_ge (y : Z) (more : list Z) (actual : Z) :
  (actual ≤ foldr Z.max y more)%Z ↔ ∃ hi, hi ∈ y :: more ∧ (actual ≤ hi)%Z.
Proof.
  induction more as [|z more IH]; cbn [foldr].
  - split.
    + intros Hle. exists y. split; [apply list_elem_of_here|done].
    + intros (hi & Hin & Hle). apply list_elem_of_singleton in Hin. lia.
  - rewrite Z.max_le_iff, IH. split.
    + intros [Hle|(hi & Hin & Hle)].
      * exists z. split; [|done]. apply elem_of_cons. right. apply list_elem_of_here.
      * exists hi. split; [|done].
        apply elem_of_cons in Hin as [->|Hin]; [apply list_elem_of_here|].
        do 2 (apply elem_of_cons; right). done.
    + intros (hi & Hin & Hle).
      apply elem_of_cons in Hin as [->|Hin].
      * right. exists y. split; [apply list_elem_of_here|done].
      * apply elem_of_cons in Hin as [->|Hin]; [by left|].
        right. exists hi. split; [|done]. apply elem_of_cons. now right.
Qed.

End FilterLeaves.

Section FilterBuilder.
Import MetadataFilter.
Variables (page_field uri_field : string).

Implicit Types (m : chunk) (c : criteria).

Lemma satisfies_optional {A} m (supplied : option A) (condition : A → filter)
    (holds : A → Prop) :
  (∀ x, satisfies m (condition x) = true ↔ holds x) →
  forallb (satisfies m) (from_option (λ x, [condition x]) [] supplied) = true ↔
  ∀ x, supplied = Some x → holds x.
Proof.
  intros Hcondition. destruct supplied as [x|]; cbn.
  - rewrite andb_true_r, Hcondition. split.
    + now intros Hx ? [= <-].
    + intros Hx. now apply Hx.
  - split; [|done]. now intros _ ? [=].
Qed.

Lemma satisfies_year_filters m c :
  forallb (satisfies m) (year_filters c) = true ↔ year_holds c m.
Proof.
  unfold year_filters, year_holds.
  destruct (year c) as [[y|y more]|]; [| |done].
  - cbn [forallb]. rewrite andb_true_r. apply satisfies_equals.
  - destruct (continuous_range c); cbn [forallb]; rewrite ?andb_true_r.
    + rewrite andb_true_iff, satisfies_at_least, satisfies_at_most.
      setoid_rewrite <- smallest_le. setoid_rewrite <- largest_ge. split.
      * intros [(actual & Hyear & Hlo) (actual' & Hyear' & Hhi)].
        rewrite Hyear in Hyear'. injection Hyear' as <-. eauto.
      * intros (actual & Hyear & Hlo & Hhi). split; eauto.
    + apply satisfies_year_set.
Qed.

(** A chunk satisfies the built filter exactly when every supplied
    criterion holds for it. *)
Lemma build_filter_sound m c :
  satisfies m (build_filter page_field uri_field c) = true ↔
  criteria_hold page_field uri_field c m.
Proof.
  unfold build_filter, criteria_hold. cbn [satisfies].
  rewrite !forallb_app, !andb_true_iff.
  rewrite satisfies_year_filters.
  rewrite (satisfies_optional m (company c) _ _
             (λ name, satisfies_equals m "company" (Text name))).
  rewrite (satisfies_optional m (docType c) _ _
             (λ t, satisfies_equals m "docType" (Text t))).
  rewrite (satisfies_optional m (min_page c) _ _
             (λ lo, satisfies_at_least m page_field lo)).
  rewrite (satisfies_optional m (max_page c) _ _
             (λ hi, satisfies_at_most m page_field hi)).
  rewrite (satisfies_optional m (s3_prefix c) _ _
             (λ prefix, satisfies_starts_with m uri_field prefix)).
  reflexivity.
Qed.

(** The bounds of the range form are the smallest and the largest year
    of the list. *)
Lemma smallest_is_listed (y : Z) (more : list Z) :
  foldr Z.min y more ∈ y :: more ∧ ∀ z, z ∈ y :: more → (foldr Z.min y more ≤ z)%Z.
Proof.
  split.
  - induction more as [|z more IH]; cbn [foldr]; [apply list_elem_of_here|].
    destruct (Z.min_spec z (foldr Z.min y more)) as [[_ ->]|[_ ->]].
    + apply elem_of_cons. right. apply list_elem_of_here.
    + apply elem_of_cons in IH as [IH|IH]; [rewrite IH; apply list_elem_of_here|].
      do 2 (apply elem_of_cons; right). done.
  - intros z Hz. apply smallest_le. exists z. split; [done|lia].
Qed.

Lemma largest_is_listed (y : Z) (more : list Z) :
  foldr Z.max y more ∈ y :: more ∧ ∀ z, z ∈ y :: more → (z ≤ foldr Z.max y more)%Z.
Proof.
  split.
  - induction more as [|z more IH]; cbn [foldr]; [apply list_elem_of_here|].
    destruct (Z.max_spec z (foldr Z.max y more)) as [[_ ->]|[_ ->]].
    + apply elem_of_cons in IH as [IH|IH]; [rewrite IH; apply list_elem_of_here|].
      do 2 (apply elem_of_cons; right). done.
    + apply elem_of_cons. right. apply list_elem_of_here.
  - intros z Hz. apply largest_ge. exists z. split; [done|lia].
Qed.

(** C3: a chunk satisfies the expression the builder returns if and only
    if every supplied criterion (company, year, docType, page bounds, S3
    prefix) holds for it; the criteria are the children of one AND node;
    without criteria every chunk passes; a year list becomes an OR-set of
    equality leaves, or the two bounds at its smallest and largest year
    when the criteria indicate a continuous range; and the standard
    filter asks for the document type and the year together. *)
Theorem C3_filter_iff_criteria_hold :
  (∀ m c,
     satisfies m (build_filter page_field uri_field c) = true ↔
     criteria_hold page_field uri_field c m) ∧
  (∀ m, satisfies m (build_filter page_field uri_field no_criteria) = true) ∧
  (∀ c y more,
     year c = Some (year_list y more) →
     if continuous_range c then
       ∃ lo hi,
         year_filters c
         = [leaf "year" greaterThanOrEquals (Number lo);
            leaf "year" lessThanOrEquals (Number hi)] ∧
         lo ∈ y :: more ∧ hi ∈ y :: more ∧
         ∀ z, z ∈ y :: more → (lo ≤ z ≤ hi)%Z
     else
       year_filters c
       = [orAll ((λ z, leaf "year" equals (Number z)) <$> y :: more)]) ∧
  (∀ m document_type y,
     satisfies m (create_standard_filter page_field uri_field document_type y)
     = true ↔
     m !! "docType" = Some (Text document_type) ∧ m !! "year" = Some (Number y)).
Proof.
  split; [|split; [|split]].
  - apply build_filter_sound.
  - reflexivity.
  - intros c y more Hyear. unfold year_filters. rewrite Hyear.
    destruct (continuous_range c); [|done].
    exists (foldr Z.min y more), (foldr Z.max y more).
    destruct (smallest_is_listed y more) as [Hlo Hleast].
    destruct (largest_is_listed y more) as [Hhi Hmost].
    repeat split; try done; [now apply Hleast | now apply Hmost].
  - intros m document_type y. unfold create_standard_filter.
    rewrite build_filter_sound. unfold criteria_hold, year_holds. cbn.
    split.
    + intros (_ & Hyear & Htype & _). split; [now apply Htype | done].
    + intros [Htype Hyear]. repeat split; try done.
      now intros ? [= <-].
Qed.

End FilterBuilder.

Section FilterRuns.
Import MetadataFilter.

(** The chunk of Amazon's 2024 report passes the filter for
    company='Amazon', year=[2023, 2024]. *)
Lemma C3_filter_iff_criteria_hold_witness :
  satisfies amazon_chunk (build_filter "page" "uri" amazon_2023_2024) = true.
Proof.
  apply (proj1 (C3_filter_iff_criteria_hold "page" "uri")).
  unfold criteria_hold, year_holds. cbn.
  split; [|split; [|repeat split; done]].
  - now intros ? [= <-].
  - exists 2024%Z. split; [reflexivity|].
    apply elem_of_cons. right. apply list_elem_of_here.
Defined.

End FilterRuns.

(** ** Runs on concrete inputs *)

Section Runs.
Import Python Pandas Athena Excel MetadataFilter.

(** After one poll the failing job is still RUNNING; the second poll sees
    FAILED and the helper raises after one sleep. *)
Example failing_service_one_poll :
  execute_athena_query failing_service 1 "SELECT * FRM orders" "retail" "s3://out/"
  = None.
Proof. reflexivity. Qed.

Example failing_service_two_polls :
  execute_athena_query failing_service 2 "SELECT * FRM orders" "retail" "s3://out/"
  = Some ([Sleep 1], Raised (Exception "Query failed: SYNTAX_ERROR: line 1:8")).
Proof. reflexivity. Qed.

(** A cancelled job without a reason. *)
Example cancelled_without_reason :
  execute_athena_query
    (mkClient (λ _ _ _, "c9") (λ _ _, mkStatus "CANCELLED" None) (λ _, []))
    1 "SELECT 1" "retail" "s3://out/"
  = Some ([], Raised (Exception "Query failed: No error message available")).
Proof. reflexivity. Qed.

(** A statement without result rows, such as CREATE EXTERNAL TABLE. *)
Example succeeded_without_rows :
  execute_athena_query
    (mkClient (λ _ _ _, "d4") (λ _ _, mkStatus "SUCCEEDED" None)
              (λ _, [mkPage []]))
    1 "CREATE EXTERNAL TABLE IF NOT EXISTS returns" "retail" "s3://out/"
  = Some ([Print "Successfully executed."], Returned).
Proof. reflexivity. Qed.

(** Tabs and line ends go with the strip, an inner tab stays. *)
Example strip_keeps_inner_tab :
  lower (strip (replace " " "_"
                  (String "009" "Ship" +:+ String "009" "Mode" +:+ String "010" "")))
  = "ship" +:+ String "009" "mode".
Proof. reflexivity. Qed.

Example lower_latin1 :
  lower (String "201" "COLE") = String "233" "cole".
Proof. reflexivity. Qed.

(** The standard filter of the notebook, and two chunks tried on the
    filter for Amazon in 2023 or 2024. *)
Example standard_filter_10K_2023 :
  create_standard_filter "page" "uri" "10K Report" 2023
  = andAll [leaf "year" equals (Number 2023);
            leaf "docType" equals (Text "10K Report")].
Proof. reflexivity. Qed.

Example amazon_2022_is_filtered_out :
  satisfies (<["year" := Number 2022]> amazon_chunk)
            (build_filter "page" "uri" amazon_2023_2024) = false.
Proof. reflexivity. Qed.

Example range_form_2021_to_2024 :
  build_filter "page" "uri"
    (mkCriteria None (Some (year_list 2023 [2021; 2024; 2022]%Z)) None None
                None None true)
  = andAll [leaf "year" greaterThanOrEquals (Number 2021);
            leaf "year" lessThanOrEquals (Number 2024)].
Proof. reflexivity. Qed.

Example page_and_prefix :
  satisfies amazon_chunk
    (build_filter "page" "uri"
       (mkCriteria None None None (Some 10%Z) (Some 20%Z)
                   (Some "s3://bucket/data/pdf_documents/") false)) = true.
Proof. reflexivity. Qed.

End Runs.

(** * Further properties *)

(** ** More on [execute_athena_query] *)

Section AthenaHelper.
Import Pandas Athena.

Lemma collect_results_app (pages more : list Page) :
  collect_results (pages ++ more) = collect_results pages ++ collect_results more.
Proof. rewrite !collect_results_flat, bind_app. apply fmap_app. Qed.

(** X1: how the result rows are cut into pages does not matter to the
    helper: two services that answer the polls alike and return the same
    rows, in the same order, but on different pages, make it do the same;
    the rows of consecutive pages are collected one after the other. *)
Theorem X1_pagination_invariance
    start poll (pages pages' : string → list Page) fuel
    query database s3_output :
  (∀ id, pages id ≫= Rows = pages' id ≫= Rows) →
  execute_athena_query (mkClient start poll pages) fuel query database s3_output
  = execute_athena_query (mkClient start poll pages') fuel query database s3_output
  ∧ ∀ id, collect_results (pages id) = collect_results (pages' id).
Proof.
  intros Hrows.
  assert (∀ id, collect_results (pages id) = collect_results (pages' id)) as Hsame.
  { intros id. now rewrite !collect_results_flat, Hrows. }
  split; [|done]. unfold execute_athena_query. cbn.
  destruct (wait_for_query fuel _ 0) as [[slept response]|]; cbn; [|done].
  now rewrite Hsame.
Qed.

(** The two rows of [returns_service] on one page instead of two. *)
Lemma X1_pagination_invariance_witness :
  execute_athena_query returns_service 1 "SELECT * FROM returns" "retail" "s3://out/"
  = execute_athena_query
      (mkClient (λ _ _ _, "a01b") (λ _ _, mkStatus "SUCCEEDED" None)
         (λ _, [mkPage [mkRow [mkDatum (Some "returned"); mkDatum (Some "order_id")];
                         mkRow [mkDatum (Some "Yes"); mkDatum None]]]))
      1 "SELECT * FROM returns" "retail" "s3://out/".
Proof.
  apply (X1_pagination_invariance
           (λ _ _ _, "a01b") (λ _ _, mkStatus "SUCCEEDED" None)
           (λ _, [mkPage [mkRow [mkDatum (Some "returned"); mkDatum (Some "order_id")]];
                  mkPage [mkRow [mkDatum (Some "Yes"); mkDatum None]]])
           (λ _, [mkPage [mkRow [mkDatum (Some "returned"); mkDatum (Some "order_id")];
                          mkRow [mkDatum (Some "Yes"); mkDatum None]]])).
  intros id. reflexivity.
Defined.

(** X2: a run of the helper that has ended slept one second per poll
    before the last and nothing else before its outcome: when it raises it
    has printed and displayed nothing; when it returns it has produced
    exactly one output after the last sleep, the line 'Successfully
    executed.' or one frame. *)
Theorem X2_one_output_after_the_sleeps
    athena_client fuel query database s3_output trace outcome :
  execute_athena_query athena_client fuel query database s3_output
  = Some (trace, outcome) →
  ∃ n, n < fuel ∧
    match outcome with
    | Raised _ => trace = replicate n (Sleep 1)
    | Returned =>
        ∃ shown, trace = replicate n (Sleep 1) ++ [shown] ∧
                 (shown = Print "Successfully executed." ∨
                  ∃ df, shown = Display df)
    end.
Proof.
  unfold execute_athena_query.
  destruct (wait_for_query fuel _ 0) as [[slept response]|] eqn:Hwait;
    cbn; [|done].
  destruct (wait_for_query_inv _ _ _ _ _ Hwait) as (n & Hn & _ & _ & -> & _).
  intros Hrun. exists n. split; [done|].
  case_bool_decide.
  - destruct (collect_results _) as [|header rest];
      [injection Hrun as <- <-; eauto|].
    destruct (DataFrame_of_rows rest header);
      injection Hrun as <- <-; eauto.
  - now injection Hrun as <- <-.
Qed.

Lemma X2_one_output_after_the_sleeps_witness :
  ∃ n, n < 3 ∧ [Sleep 1] = replicate n (Sleep 1).
Proof.
  apply (X2_one_output_after_the_sleeps
           failing_service 3 "SELECT * FRM orders" "retail" "s3://out/"
           [Sleep 1] (Raised (Exception "Query failed: SYNTAX_ERROR: line 1:8"))).
  reflexivity.
Defined.

(** A row with every missing value written as an empty one. *)
Lemma row_values_blank (row : Row) :
  row_values (mkRow ((λ field, mkDatum (Some (default "" (VarCharValue field))))
                       <$> Data row))
  = row_values row.
Proof. unfold row_values. cbn. now rewrite <- list_fmap_compose. Qed.

(** X3: the helper cannot tell a missing value from an empty one: if
    every field without a VarCharValue is given the empty string instead,
    the helper does the same. *)
Theorem X3_missing_value_reads_as_empty
    start poll (pages : string → list Page) fuel query database s3_output :
  let blank (page : Page) : Page :=
    mkPage ((λ row,
               mkRow ((λ field,
                         mkDatum (Some (match VarCharValue field with
                                        | Some value => value
                                        | None => ""
                                        end)))
                        <$> Data row))
              <$> Rows page) in
  execute_athena_query (mkClient start poll (λ id, blank <$> pages id))
    fuel query database s3_output
  = execute_athena_query (mkClient start poll pages)
      fuel query database s3_output.
Proof.
  intros blank. unfold execute_athena_query. cbn.
  destruct (wait_for_query fuel _ 0) as [[slept response]|]; cbn; [|done].
  enough (∀ l, collect_results (blank <$> l) = collect_results l) as ->; [done|].
  intros l. rewrite !collect_results_flat.
  induction l as [|page l IH]; [done|].
  cbn [fmap list_fmap mbind list_bind]. rewrite !fmap_app. f_equal; [|exact IH].
  unfold blank. cbn. rewrite <- list_fmap_compose.
  apply list_fmap_ext. intros _ row _. apply row_values_blank.
Qed.

End AthenaHelper.

(** ** More on the "create if missing" cells *)

Section CellOutcomes.
Import Python Cells.

(** X4: each of the two cells ends in one of two ways, whatever the
    service answers: it has printed exactly one line and no exception
    escapes, or it has printed nothing and one exception escapes. *)
Theorem X4_one_line_or_one_exception :
  (∀ create_bucket s3_bucket_name region,
     let outcome := create_bucket_cell create_bucket s3_bucket_name region in
     (length outcome.1 = 1 ∧ outcome.2 = None) ∨
     (outcome.1 = [] ∧ is_Some outcome.2)) ∧
  (∀ glue_client_bound boto3_client create_database db_name,
     let outcome :=
       create_database_cell glue_client_bound boto3_client create_database
         db_name in
     (length outcome.1 = 1 ∧ outcome.2 = None) ∨
     (outcome.1 = [] ∧ is_Some outcome.2)).
Proof.
  split.
  - intros create_bucket s3_bucket_name region. cbn. unfold create_bucket_cell.
    destruct (create_bucket s3_bucket_name region) as [u|e]; [left; done|].
    case_decide; [left; done | right; eauto].
  - intros bound boto3_client create_database db_name. cbn.
    unfold create_database_cell.
    destruct boto3_client as [u|e].
    + destruct (create_database db_name) as [u'|e]; [left; done|].
      case_decide; [left; done | right; eauto].
    + destruct bound; [|right; eauto].
      case_decide; [left; done | right; eauto].
Qed.

(** X5: in the database cell the [except] clause reaches the exception
    class through [glue_client], which the [try] block itself binds.  On a
    kernel where that name is not yet bound, a failure to make the client
    therefore ends the cell with [NameError] for 'glue_client', whatever
    was raised, and [create_database] is not reached; once the name is
    bound the exception raised is the one that escapes, unless it is
    [AlreadyExistsException]. *)
Theorem X5_unbound_client_name
    (e : exception) create_database create_database' db_name :
  create_database_cell false (Raise e) create_database db_name
  = ([], Some (NameError "glue_client")) ∧
  create_database_cell true (Raise e) create_database db_name
  = create_database_cell true (Raise e) create_database' db_name ∧
  (e ≠ AlreadyExistsException →
   create_database_cell true (Raise e) create_database db_name = ([], Some e)).
Proof.
  repeat split. intros Hne. unfold create_database_cell.
  now rewrite decide_False.
Qed.

Lemma X5_unbound_client_name_witness :
  create_database_cell true (Raise (ClientError "NoRegionError"))
    (λ _, Ok ()) "retail"
  = ([], Some (ClientError "NoRegionError")).
Proof.
  apply (X5_unbound_client_name
           (ClientError "NoRegionError") (λ _, Ok ()) (λ _, Ok ()) "retail").
  discriminate.
Defined.

End CellOutcomes.

(** ** More on the column labels *)

Section LabelNormalisation.
Import Python.

Lemma lower_char_underscore c :
  lower_char (if decide (c = " "%char) then "_"%char else c)
  = if decide (lower_char c = " "%char) then "_"%char else lower_char c.
Proof. destruct c as [[] [] [] [] [] [] [] []]; reflexivity. Qed.

Lemma replace_lower (s : string) :
  replace " " "_" (lower s) = lower (replace " " "_" s).
Proof.
  induction s as [|c s IH]; cbn; [done|].
  now rewrite IH, lower_char_underscore.
Qed.

Lemma lstrip_lower (s : string) : lstrip (lower s) = lower (lstrip s).
Proof.
  induction s as [|c s IH]; cbn; [done|].
  rewrite isspace_lower_char. now destruct (isspace c).
Qed.

Lemma rstrip_lower (s : string) : rstrip (lower s) = lower (rstrip s).
Proof.
  induction s as [|c s IH]; cbn; [done|].
  rewrite IH, isspace_lower_char.
  destruct (rstrip s); cbn; [|done]. now destruct (isspace c).
Qed.

Lemma strip_lower (s : string) : strip (lower s) = lower (strip s).
Proof. unfold strip. now rewrite lstrip_lower, rstrip_lower. Qed.

(** A string without the old character is left alone by [replace]. *)
Lemma replace_absent old new (s : string) :
  old ∉ chars s → replace old new s = s.
Proof.
  induction s as [|c s IH]; cbn; [done|].
  rewrite not_elem_of_cons. intros [Hc Hs].
  rewrite decide_False by congruence. now rewrite IH.
Qed.

Lemma lstrip_head (s : string) :
  lstrip s = "" ∨ ∃ c rest, lstrip s = String c rest ∧ isspace c = false.
Proof.
  induction s as [|c s IH]; cbn; [by left|].
  destruct (isspace c) eqn:Hc; [done|]. right. eauto.
Qed.

Lemma rstrip_cons_kept c (s : string) d kept :
  rstrip s = String d kept → rstrip (String c s) = String c (String d kept).
Proof. intros Hkept. cbn. now rewrite Hkept. Qed.

Lemma rstrip_rstrip (s : string) : rstrip (rstrip s) = rstrip s.
Proof.
  induction s as [|c s IH]; cbn; [done|].
  destruct (rstrip s) as [|d kept] eqn:Hkept.
  - destruct (isspace c) eqn:Hc; cbn; [done|]. now rewrite Hc.
  - now apply rstrip_cons_kept.
Qed.

Lemma strip_strip (s : string) : strip (strip s) = strip s.
Proof.
  unfold strip. destruct (lstrip_head s) as [->|(c & rest & -> & Hc)]; [done|].
  rewrite (rstrip_cons_keeps c rest Hc), (lstrip_keeps c _ Hc).
  rewrite <- (rstrip_cons_keeps c rest Hc). apply rstrip_rstrip.
Qed.

(** The three steps leave their own result alone. *)
Lemma normalise_normalise (name : string) :
  let once := lower (strip (replace " " "_" name)) in
  lower (strip (replace " " "_" once)) = once.
Proof.
  intros once.
  rewrite (replace_absent " " "_" once).
  - unfold once. now rewrite strip_lower, strip_strip, lower_lower.
  - intros Hspace. now apply normalise_chars in Hspace.
Qed.

(** The three steps see a label only through its lowered, underscored
    form. *)
Lemma normalise_through_lower (name : string) :
  lower (strip (replace " " "_" name))
  = strip (lower (replace " " "_" name)).
Proof. now rewrite strip_lower. Qed.

End LabelNormalisation.

Section LoaderAgain.
Import Python Pandas Excel.
Context {cell : Type}.

(** X6: loading is idempotent on labels: a workbook whose first sheet is
    a frame the loader has returned is loaded back as that very frame. *)
Theorem X6_loading_a_loaded_frame
    (s3 s3' : gmap (string * string) (@ExcelFile cell))
    source_bucket source_key source_bucket' source_key'
    (preview df : DataFrame cell) sheet_name others :
  load_excel_to_df s3 source_bucket source_key = Ok (preview, df) →
  s3' !! (source_bucket', source_key') = Some ((sheet_name, df) :: others) →
  load_excel_to_df s3' source_bucket' source_key' = Ok (head 5 df, df).
Proof.
  intros Hfirst Hagain.
  rewrite (load_excel_to_df_first _ _ _ _ _ _ Hagain). cbn zeta.
  destruct (load_excel_to_df_Ok _ _ _ _ _ Hfirst)
    as (first_name & sheet & rest & _ & Hstr & -> & _).
  cbn [columns data]. rewrite has_str_str_map, Hstr, str_map_compose.
  enough (str_map (λ name, lower (strip (replace " " "_"
                     (lower (strip (replace " " "_" name))))))
            <$> columns sheet
          = str_map (λ name, lower (strip (replace " " "_" name)))
              <$> columns sheet) as -> by done.
  apply list_fmap_ext. intros _ [name| |] _; cbn; try done.
  f_equal. apply normalise_normalise.
Qed.

(** X7: the loader does not tell labels apart that differ only in the
    case of their letters or in a space for an underscore: two workbooks
    whose first sheets have the same data, and labels that agree once
    spaces are underscores and letters are lowered, load alike. *)
Theorem X7_labels_up_to_case_and_spaces
    (s3 s3' : gmap (string * string) (@ExcelFile cell))
    source_bucket source_key source_bucket' source_key'
    first_name sheet others first_name' sheet' others' :
  s3 !! (source_bucket, source_key) = Some ((first_name, sheet) :: others) →
  s3' !! (source_bucket', source_key') = Some ((first_name', sheet') :: others') →
  data sheet = data sheet' →
  str_map (λ name, lower (replace " " "_" name)) <$> columns sheet
  = str_map (λ name, lower (replace " " "_" name)) <$> columns sheet' →
  load_excel_to_df s3 source_bucket source_key
  = load_excel_to_df s3' source_bucket' source_key'.
Proof.
  intros Hobject Hobject' Hdata Hlabels.
  rewrite (load_excel_to_df_first _ _ _ _ _ _ Hobject).
  rewrite (load_excel_to_df_first _ _ _ _ _ _ Hobject').
  rewrite Hdata.
  assert (∀ labels : list label,
            str_map (λ name, lower (strip (replace " " "_" name))) <$> labels
            = str_map strip
                <$> (str_map (λ name, lower (replace " " "_" name)) <$> labels))
    as Hthrough.
  { intros labels. rewrite str_map_compose. apply list_fmap_ext.
    intros _ [name| |] _; cbn; try done. f_equal. apply normalise_through_lower. }
  rewrite !Hthrough, Hlabels.
  rewrite <- (has_str_str_map (λ name, lower (replace " " "_" name)) (columns sheet)).
  rewrite <- (has_str_str_map (λ name, lower (replace " " "_" name)) (columns sheet')).
  now rewrite Hlabels.
Qed.

End LoaderAgain.

Section LoaderAgainRuns.
Import Python Pandas Excel.

Lemma X6_loading_a_loaded_frame_witness :
  load_excel_to_df
    ({[ ("retail", "orders-again.xlsx")
        := [("Sheet1",
             mkDataFrame [Str "row_id"; Str "_order_date_"; Str "ship_mode"]
                         [[1; 2; 3]; [4; 5; 6]]%Z)] ]})
    "retail" "orders-again.xlsx"
  = Ok (head 5 (mkDataFrame [Str "row_id"; Str "_order_date_"; Str "ship_mode"]
                            [[1; 2; 3]; [4; 5; 6]]%Z),
        mkDataFrame [Str "row_id"; Str "_order_date_"; Str "ship_mode"]
                    [[1; 2; 3]; [4; 5; 6]]%Z).
Proof.
  apply (X6_loading_a_loaded_frame
           orders_bucket _ "aws-bigdata-blog" "orders.xlsx"
           "retail" "orders-again.xlsx"
           (head 5 (mkDataFrame [Str "row_id"; Str "_order_date_"; Str "ship_mode"]
                                [[1; 2; 3]; [4; 5; 6]]%Z))
           _ "Sheet1" []).
  - reflexivity.
  - reflexivity.
Defined.

(** 'Order ID' and 'order_id' end as the same label. *)
Lemma X7_labels_up_to_case_and_spaces_witness :
  load_excel_to_df
    ({[ ("b", "one.xlsx") := [("S", mkDataFrame [Str "Order ID"] [[1%Z]])] ]})
    "b" "one.xlsx"
  = load_excel_to_df
      ({[ ("b", "two.xlsx") := [("T", mkDataFrame [Str "order_id"] [[1%Z]])] ]})
      "b" "two.xlsx".
Proof.
  apply (X7_labels_up_to_case_and_spaces
           ({[ ("b", "one.xlsx") := [("S", mkDataFrame [Str "Order ID"] [[1%Z]])] ]})
           ({[ ("b", "two.xlsx") := [("T", mkDataFrame [Str "order_id"] [[1%Z]])] ]})
           "b" "one.xlsx" "b" "two.xlsx"
           "S" (mkDataFrame [Str "Order ID"] [[1%Z]]) []
           "T" (mkDataFrame [Str "order_id"] [[1%Z]]) []);
    reflexivity.
Defined.

End LoaderAgainRuns.

(** ** The retail notebook: where the data goes *)

Section RetailPaths.
Import Python Pandas Excel Retail.

Lemma append_assoc (a b c : string) : (a +:+ b) +:+ c = a +:+ b +:+ c.
Proof.
  induction a as [|x a IH]; [done|].
  rewrite !append_cons. now rewrite IH.
Qed.

(** A common beginning does not change whether one string starts
    another. *)
Lemma starts_with_common (a p s : string) :
  MetadataFilter.starts_with (a +:+ p) (a +:+ s) = MetadataFilter.starts_with p s.
Proof.
  induction a as [|x a IH]; [done|].
  rewrite !append_cons. cbn. rewrite IH. now rewrite bool_decide_eq_true_2.
Qed.

(** X9: for every account and region, each table definition names as
    its LOCATION the folder the matching CSV file is written into, the
    file of the other table is not under it, and the folder Athena writes
    its query output to, in the same bucket, is under neither. *)
Theorem X9_tables_read_what_is_uploaded (account_id region : string) :
  let bucket := s3_bucket_name account_id region in
  let orders_dir := "s3://" +:+ bucket +:+ "/data/orders" in
  let returns_dir := "s3://" +:+ bucket +:+ "/data/returns" in
  Athena.contains (orders_sql account_id region)
    ("LOCATION '" +:+ orders_dir +:+ "'") ∧
  Athena.contains (returns_sql account_id region)
    ("LOCATION '" +:+ returns_dir +:+ "'") ∧
  orders_csv account_id region = orders_dir +:+ "/orders.csv" ∧
  returns_csv account_id region = returns_dir +:+ "/returns.csv" ∧
  MetadataFilter.starts_with orders_dir (returns_csv account_id region) = false ∧
  MetadataFilter.starts_with returns_dir (orders_csv account_id region) = false ∧
  MetadataFilter.starts_with ("s3://" +:+ bucket +:+ "/")
    (s3_output account_id region) = true ∧
  MetadataFilter.starts_with orders_dir (s3_output account_id region) = false ∧
  MetadataFilter.starts_with returns_dir (s3_output account_id region) = false.
Proof.
  intros bucket orders_dir returns_dir.
  split; [|split].
  - exists "
    CREATE EXTERNAL TABLE IF NOT EXISTS orders (
        row_id BIGINT,
        order_id STRING,
        order_date TIMESTAMP,
        ship_date TIMESTAMP,
        ship_mode STRING,
        customer_id STRING,
        customer_name STRING,
        segment STRING,
        city STRING,
        state STRING,
        country STRING,
        postal_code DOUBLE,
        market STRING,
        region STRING,
        product_id STRING,
        category STRING,
        `sub-category` STRING,
        product_name STRING,
        sales DOUBLE,
        quantity BIGINT,
        discount DOUBLE,
        profit DOUBLE,
        shipping_cost DOUBLE,
        order_priority STRING
    )
    ROW FORMAT DELIMITED
    FIELDS TERMINATED BY ','
    LINES TERMINATED BY '
'
    ",
           "
    TBLPROPERTIES ('skip.header.line.count'='1')
".
    unfold orders_sql, orders_dir, bucket, s3_bucket_name.
    rewrite !append_assoc. reflexivity.
  - exists "
    CREATE EXTERNAL TABLE IF NOT EXISTS returns (
        returned STRING,
        order_id STRING,
        market STRING
    )
    ROW FORMAT DELIMITED
    FIELDS TERMINATED BY ','
    LINES TERMINATED BY '
'
    ",
           "
    TBLPROPERTIES ('skip.header.line.count'='1')
".
    unfold returns_sql, returns_dir, bucket, s3_bucket_name.
    rewrite !append_assoc. reflexivity.
  - unfold orders_csv, returns_csv, s3_output, orders_dir, returns_dir.
    fold bucket. rewrite !append_assoc.
    split; [reflexivity|]. split; [reflexivity|].
    rewrite !(starts_with_common "s3://"), !(starts_with_common bucket).
    repeat split; reflexivity.
Qed.

(** What a successful load hands over. *)
Lemma load_excel_to_df_ok {cell}
    (s3 : gmap (string * string) (@ExcelFile cell))
    source_bucket source_key (preview df : DataFrame cell) :
  load_excel_to_df s3 source_bucket source_key = Ok (preview, df) →
  preview = head 5 df ∧
  ∀ name, Str name ∈ columns df →
    (" "%char ∉ chars name) ∧ lower name = name.
Proof.
  intros (first_name & sheet & others & _ & _ & -> & ->)%load_excel_to_df_Ok.
  split; [done|]. cbn [columns].
  intros name ([source| |] & Hname & _)%list_elem_of_fmap; try done.
  injection Hname as ->. split.
  - intros Hc. now apply normalise_chars in Hc.
  - apply lower_lower.
Qed.

(** X8: the upload cell writes both CSV files or none.  When it ends
    normally it has written exactly two objects, the orders frame to the
    orders path and the returns frame to the returns path, both as the
    loader returned them (labels without spaces or capitals), after the
    two previews; when a workbook cannot be loaded the loader's exception
    ends the cell before anything is written. *)
Theorem X8_upload_both_or_nothing {cell}
    (s3 : gmap (string * string) (@ExcelFile cell))
    account_id region previews outcome :
  upload_cell s3 account_id region = (previews, outcome) →
  match outcome with
  | Ok writes =>
      ∃ df_orders df_returns,
        load_excel_to_df s3 source_bucket_name order_table_s3_key
        = Ok (head 5 df_orders, df_orders) ∧
        load_excel_to_df s3 source_bucket_name returns_table_s3_key
        = Ok (head 5 df_returns, df_returns) ∧
        previews = [head 5 df_orders; head 5 df_returns] ∧
        writes = [(orders_csv account_id region, df_orders);
                  (returns_csv account_id region, df_returns)] ∧
        ∀ name, Str name ∈ columns df_orders ++ columns df_returns →
          (" "%char ∉ chars name) ∧ lower name = name
  | Raise e =>
      (load_excel_to_df s3 source_bucket_name order_table_s3_key = Raise e ∧
       previews = []) ∨
      (∃ df_orders,
         load_excel_to_df s3 source_bucket_name order_table_s3_key
         = Ok (head 5 df_orders, df_orders) ∧
         load_excel_to_df s3 source_bucket_name returns_table_s3_key = Raise e ∧
         previews = [head 5 df_orders])
  end.
Proof.
  unfold upload_cell.
  destruct (load_excel_to_df s3 source_bucket_name order_table_s3_key)
    as [[orders_preview df_orders]|e] eqn:Horders.
  - destruct (load_excel_to_df_ok _ _ _ _ _ Horders) as [-> Horders_labels].
    destruct (load_excel_to_df s3 source_bucket_name returns_table_s3_key)
      as [[returns_preview df_returns]|e] eqn:Hreturns.
    + destruct (load_excel_to_df_ok _ _ _ _ _ Hreturns) as [-> Hreturns_labels].
      intros [= <- <-]. exists df_orders, df_returns.
      do 4 (split; [done|]).
      intros name [Hin|Hin]%elem_of_app;
        [now apply Horders_labels | now apply Hreturns_labels].
    + intros [= <- <-]. right. eauto.
  - intros [= <- <-]. now left.
Qed.

End RetailPaths.

Section RetailRuns.
Import Python Pandas Excel Retail.

(** Only the orders workbook is there: its preview is printed, then the
    missing returns workbook ends the cell, and nothing is written. *)
Lemma X8_upload_both_or_nothing_witness :
  ∃ df_orders,
    load_excel_to_df
      ({[ (source_bucket_name, order_table_s3_key) := orders_workbook ]})
      source_bucket_name order_table_s3_key
    = Ok (head 5 df_orders, df_orders) ∧
    [head 5 (mkDataFrame [Str "row_id"; Str "_order_date_"; Str "ship_mode"]
                         [[1; 2; 3]; [4; 5; 6]]%Z)]
    = [head 5 df_orders].
Proof.
  destruct (X8_upload_both_or_nothing
              ({[ (source_bucket_name, order_table_s3_key) := orders_workbook ]})
              "111122223333" "us-west-2"
              [head 5 (mkDataFrame [Str "row_id"; Str "_order_date_"; Str "ship_mode"]
                                   [[1; 2; 3]; [4; 5; 6]]%Z)]
              (Raise (ClientError "NoSuchKey")))
    as [[Hraise _]|(df_orders & Horders & _ & Hpreviews)].
  - reflexivity.
  - discriminate Hraise.
  - exists df_orders. split; [exact Horders | exact Hpreviews].
Defined.

End RetailRuns.

(** ** The cell that reads the cost report *)

Section NewRow.
Import Python Cost.

(** X10: the cell that builds [new_row] needs the four keys 'duration
    in minutes', 'input_tokens', 'invocation_count' and 'total token
    costs' in the report: with all four it returns the row, with
    'embedding_seconds' sixty times the duration; otherwise it raises
    [KeyError] for the first of them, in that order, that is missing. *)
Theorem X10_new_row_needs_the_four_keys
    kb_chunking_strategy (report : gmap string Qc) :
  match new_row kb_chunking_strategy report with
  | Ok row =>
      ∃ duration input_tokens invocation_count total,
        report !! "duration in minutes" = Some duration ∧
        report !! "input_tokens" = Some input_tokens ∧
        report !! "invocation_count" = Some invocation_count ∧
        report !! "total token costs" = Some total ∧
        row = {[ "chunking_algo" := Label kb_chunking_strategy;
                 "embedding_seconds" := Amount (duration * Qc_of_Z 60)%Qc;
                 "input_tokens" := Amount input_tokens;
                 "invocation_count" := Amount invocation_count;
                 "total_token_costs" := Amount total ]}
  | Raise e =>
      ∃ keys_before key keys_after,
        ["duration in minutes"; "input_tokens"; "invocation_count";
         "total token costs"] = keys_before ++ key :: keys_after ∧
        e = KeyError key ∧
        report !! key = None ∧
        ∀ earlier, earlier ∈ keys_before → is_Some (report !! earlier)
  end.
Proof.
  unfold new_row, getitem.
  destruct (report !! "duration in minutes") as [duration|] eqn:Hduration; cbn.
  2: { exists [], "duration in minutes". eexists. repeat split; try done.
       intros ? []%elem_of_nil. }
  destruct (report !! "input_tokens") as [input_tokens|] eqn:Htokens; cbn.
  2: { exists ["duration in minutes"], "input_tokens". eexists.
       repeat split; try done.
       intros ? ->%list_elem_of_singleton. eauto. }
  destruct (report !! "invocation_count") as [invocation_count|] eqn:Hcount; cbn.
  2: { exists ["duration in minutes"; "input_tokens"], "invocation_count".
       eexists. repeat split; try done.
       intros ? [-> | ->%list_elem_of_singleton]%elem_of_cons; eauto. }
  destruct (report !! "total token costs") as [total|] eqn:Htotal; cbn.
  2: { exists ["duration in minutes"; "input_tokens"; "invocation_count"],
              "total token costs", [].
       repeat split; try done.
       intros ? [-> | [-> | ->%list_elem_of_singleton]%elem_of_cons]%elem_of_cons;
         eauto. }
  eauto 10.
Qed.

End NewRow.

(** ** The diagram cell: finding the path in the agent's answer *)

Section StrMethods.
Import Python Strands.

Implicit Types (sub s before after rest : string) (c : ascii).

Lemma append_empty_r s : s +:+ "" = s.
Proof. induction s as [|x s IH]; [done|]. now rewrite append_cons, IH. Qed.

Lemma length_append (a b : string) :
  String.length (a +:+ b) = String.length a + String.length b.
Proof. induction a as [|x a IH]; [done|]. rewrite append_cons. cbn. now rewrite IH. Qed.

Lemma drop_chars_append (a b : string) : drop_chars (String.length a) (a +:+ b) = b.
Proof. induction a as [|x a IH]; [by destruct b|]. now rewrite append_cons. Qed.

Lemma take_chars_append (a b : string) : take_chars (String.length a) (a +:+ b) = a.
Proof.
  induction a as [|x a IH]; [by destruct b|].
  rewrite append_cons. cbn. now rewrite IH.
Qed.

Lemma take_chars_all n s : String.length s ≤ n → take_chars n s = s.
Proof.
  revert n. induction s as [|x s IH]; intros [|n] Hn; cbn in *; try done; [lia|].
  rewrite IH; [done|lia].
Qed.

Lemma take_chars_subset n s c : c ∈ chars (take_chars n s) → c ∈ chars s.
Proof.
  revert n. induction s as [|x s IH]; intros [|n]; cbn; try done.
  - by intros ?%elem_of_nil.
  - rewrite !elem_of_cons. intros [->|Hc]; [by left|]. right. eauto.
Qed.

(** [find] one step at a time. *)
Lemma find_eq sub s :
  find sub s
  = if MetadataFilter.starts_with sub s then Some 0
    else match s with
         | EmptyString => None
         | String _ rest => S <$> find sub rest
         end.
Proof. now destruct s. Qed.

(** What [find] returns is the place of an occurrence... *)
Lemma find_some sub s i :
  find sub s = Some i →
  ∃ before after, s = before +:+ sub +:+ after ∧ String.length before = i.
Proof.
  revert i. induction s as [|x s IH]; intros i; rewrite find_eq.
  - destruct (MetadataFilter.starts_with sub "") eqn:Hstart; [|done].
    intros [= <-]. apply starts_with_spec in Hstart as [after Hafter].
    now exists "", after.
  - destruct (MetadataFilter.starts_with sub (String x s)) eqn:Hstart.
    + intros [= <-]. apply starts_with_spec in Hstart as [after Hafter].
      now exists "", after.
    + destruct (find sub s) as [j|]; [|done]. intros [= <-].
      destruct (IH j eq_refl) as (before & after & -> & <-).
      now exists (String x before), after.
Qed.

(** ... and [None] means there is none. *)
Lemma find_none sub s :
  find sub s = None ↔ ¬ Athena.contains s sub.
Proof.
  split.
  - induction s as [|x s IH]; rewrite find_eq.
    + destruct (MetadataFilter.starts_with sub "") eqn:Hstart; [done|].
      intros _ (before & after & Heq).
      destruct before; [|done]. rewrite append_empty_l in Heq.
      assert (MetadataFilter.starts_with sub "" = true) as Htrue
        by (apply starts_with_spec; eauto).
      congruence.
    + destruct (MetadataFilter.starts_with sub (String x s)) eqn:Hstart; [done|].
      destruct (find sub s) as [j|] eqn:Hfind; [done|].
      intros _ (before & after & Heq). destruct before as [|y before].
      * rewrite append_empty_l in Heq.
        assert (MetadataFilter.starts_with sub (String x s) = true) as Htrue
          by (apply starts_with_spec; eauto).
        congruence.
      * rewrite append_cons in Heq. injection Heq as _ Heq.
        apply IH; [done|]. now exists before, after.
  - intros Hno. destruct (find sub s) as [i|] eqn:Hfind; [|done].
    destruct (find_some _ _ _ Hfind) as (before & after & Heq & _).
    exfalso. apply Hno. now exists before, after.
Qed.

Lemma find_some_length sub s i :
  find sub s = Some i → i + String.length sub ≤ String.length s.
Proof.
  intros (before & after & -> & <-)%find_some.
  rewrite !length_append. lia.
Qed.

Lemma starts_with_shorter sub s rest :
  MetadataFilter.starts_with sub (s +:+ rest) = true →
  String.length sub ≤ String.length s →
  MetadataFilter.starts_with sub s = true.
Proof.
  revert s. induction sub as [|p sub IH]; intros s; [done|].
  destruct s as [|x s]; [cbn; lia|].
  rewrite append_cons. cbn. rewrite !andb_true_iff.
  intros [Hp Hrest] Hlen. split; [done|]. apply IH; [done|lia].
Qed.

(** The first occurrence stays the first when text is added behind. *)
Lemma find_append sub s rest i :
  find sub s = Some i → find sub (s +:+ rest) = Some i.
Proof.
  revert i. induction s as [|x s IH]; intros i; rewrite find_eq.
  - destruct (MetadataFilter.starts_with sub "") eqn:Hstart; [|done].
    intros [= <-]. rewrite find_eq.
    apply starts_with_spec in Hstart as [after Hafter].
    destruct sub; [|done]. reflexivity.
  - destruct (MetadataFilter.starts_with sub (String x s)) eqn:Hstart.
    + intros [= <-]. rewrite find_eq.
      apply starts_with_spec in Hstart as [after ->].
      rewrite append_assoc.
      now rewrite (proj2 (starts_with_spec sub (sub +:+ after +:+ rest)))
        by eauto.
    + destruct (find sub s) as [j|] eqn:Hfind; [|done]. intros [= <-].
      rewrite append_cons, find_eq, <- append_cons.
      destruct (MetadataFilter.starts_with sub (String x s +:+ rest)) eqn:Hlong.
      * apply starts_with_shorter in Hlong; [congruence|].
        apply find_some_length in Hfind. cbn. lia.
      * now rewrite (IH j).
Qed.

(** [find] for a single character. *)
Lemma find_char_none c s : find (String c "") s = None ↔ c ∉ chars s.
Proof.
  induction s as [|x s IH]; rewrite find_eq; cbn.
  - split; [intros _; apply not_elem_of_nil | done].
  - rewrite andb_true_r, not_elem_of_cons. case_bool_decide as Hc.
    + split; [done|]. now intros [? _].
    + destruct (find (String c "") s); cbn.
      * split; [done|]. intros [_ Hs]. now apply IH in Hs.
      * split; [|done]. intros _. split; [done|]. now apply IH.
Qed.

Lemma find_char_first c (p more : string) :
  c ∉ chars p → find (String c "") (p +:+ String c more) = Some (String.length p).
Proof.
  induction p as [|x p IH]; cbn.
  - intros _. rewrite append_empty_l, find_eq. cbn.
    now rewrite bool_decide_eq_true_2.
  - rewrite not_elem_of_cons. intros [Hx Hp].
    rewrite append_cons, find_eq. cbn.
    rewrite bool_decide_eq_false_2 by done. cbn. now rewrite IH.
Qed.

Lemma find_char_take c s i :
  find (String c "") s = Some i → c ∉ chars (take_chars i s).
Proof.
  revert i. induction s as [|x s IH]; intros i; rewrite find_eq; cbn.
  - done.
  - rewrite andb_true_r. case_bool_decide as Hc.
    + intros [= <-]. cbn. apply not_elem_of_nil.
    + destruct (find (String c "") s) as [j|]; [|done]. intros [= <-].
      cbn. rewrite not_elem_of_cons. split; [done|]. now apply IH.
Qed.

(** [strip] with a set of characters. *)
Lemma lstrip_set_chars set s c : c ∈ chars (lstrip_set set s) → c ∈ chars s.
Proof.
  induction s as [|x s IH]; cbn; [done|].
  case_bool_decide; [|done]. intros Hc. apply elem_of_cons. right. now apply IH.
Qed.

Lemma rstrip_set_chars set s c : c ∈ chars (rstrip_set set s) → c ∈ chars s.
Proof.
  revert c. induction s as [|x s IH]; intros c; cbn; [done|].
  destruct (rstrip_set set s) as [|y kept] eqn:Hkept.
  - case_bool_decide; cbn; [by rewrite elem_of_nil|].
    rewrite elem_of_cons, elem_of_nil, elem_of_cons. tauto.
  - cbn. rewrite !elem_of_cons. intros [->|Hc]; [by left|].
    right. apply IH. cbn. now rewrite elem_of_cons.
Qed.

Lemma lstrip_set_head set s :
  lstrip_set set s = "" ∨ ∃ c rest, lstrip_set set s = String c rest ∧ c ∉ set.
Proof.
  induction s as [|x s IH]; cbn; [by left|].
  case_bool_decide; [done|]. right. eauto.
Qed.

Lemma rstrip_set_cons_keeps set c s :
  c ∉ set → rstrip_set set (String c s) = String c (rstrip_set set s).
Proof.
  intros Hc. cbn. rewrite bool_decide_eq_false_2 by done.
  now destruct (rstrip_set set s).
Qed.

Lemma rstrip_set_last set s :
  rstrip_set set s = "" ∨
  ∃ init c, rstrip_set set s = init +:+ String c "" ∧ c ∉ set.
Proof.
  induction s as [|x s IH]; cbn; [by left|].
  destruct IH as [->|(init & c & -> & Hc)].
  - case_bool_decide; [by left|]. right. now exists "", x.
  - right. exists (String x init), c. split; [|done].
    rewrite append_cons. now destruct init.
Qed.

Lemma rstrip_set_keeps set c s :
  c ∉ set → rstrip_set set (s +:+ String c "") = s +:+ String c "".
Proof.
  intros Hc. induction s as [|x s IH].
  - rewrite append_empty_l. cbn. now rewrite bool_decide_eq_false_2.
  - rewrite append_cons. cbn [rstrip_set]. rewrite IH.
    destruct s; reflexivity.
Qed.

(** What is left after the strip does not begin or end with a character
    of the set. *)
Lemma strip_set_ends set s :
  strip_set set s = "" ∨
  (∃ c rest, strip_set set s = String c rest ∧ c ∉ set) ∧
  (∃ init c, strip_set set s = init +:+ String c "" ∧ c ∉ set).
Proof.
  unfold strip_set.
  destruct (lstrip_set_head set s) as [->|(c & rest & -> & Hc)]; [by left|].
  right. rewrite (rstrip_set_cons_keeps set c rest Hc). split; [eauto|].
  rewrite <- (rstrip_set_cons_keeps set c rest Hc).
  destruct (rstrip_set_last set (String c rest)) as [Hempty|Hlast]; [|done].
  now rewrite (rstrip_set_cons_keeps set c rest Hc) in Hempty.
Qed.

End StrMethods.

Section DiagramCell.
Import Python Strands.
Variables (fs : os) (repr : list string → string).

(** The line after the marker, cut out by [find] and the slice. *)
Lemma show_diagram_line (before padded tail : string) :
  find path_marker (before +:+ path_marker) = Some (String.length before) →
  "010"%char ∉ chars padded →
  (tail = "" ∨ ∃ more, tail = newline +:+ more) →
  let text := before +:+ path_marker +:+ padded +:+ tail in
  text ≠ "" ∧
  find path_marker text = Some (String.length before) ∧
  slice text (String.length before + String.length path_marker)
    (match find_from newline text
             (String.length before + String.length path_marker) with
     | Some e => e
     | None => String.length text
     end)
  = padded.
Proof.
  intros Hfirst Hline Htail text.
  assert (text = (before +:+ path_marker) +:+ padded +:+ tail) as Htext
    by (unfold text; now rewrite append_assoc).
  split; [|split].
  - unfold text. now destruct before.
  - rewrite Htext. now apply find_append.
  - unfold find_from, slice.
    rewrite <- (length_append before path_marker).
    rewrite Htext, drop_chars_append.
    rewrite decide_True by (rewrite !length_append; lia).
    unfold newline.
    destruct Htail as [->|[more ->]].
    + rewrite append_empty_r.
      rewrite (proj2 (find_char_none "010" padded) Hline). cbn [fmap option_fmap option_map].
      apply take_chars_all. rewrite !length_append. cbn. lia.
    + unfold newline. rewrite append_cons, append_empty_l.
      rewrite (find_char_first "010" padded more Hline). cbn [fmap option_fmap option_map].
      replace (_ - _) with (String.length padded) by lia.
      apply take_chars_append.
Qed.

Lemma show_diagram_found (text : string) found :
  text ≠ "" →
  find path_marker text = Some found →
  (show_diagram fs repr text).2
  = Some (strip_set quote_chars
            (strip (slice text (found + String.length path_marker)
                      (match find_from newline text
                               (found + String.length path_marker) with
                       | Some e => e
                       | None => String.length text
                       end)))).
Proof.
  intros Htext Hfound. unfold show_diagram.
  rewrite decide_False by done. now rewrite Hfound.
Qed.

(** The slice up to the next line break has no line break in it. *)
Lemma slice_line_no_break (text : string) (start : nat) :
  "010"%char
  ∉ chars (slice text start
             (match find_from newline text start with
              | Some e => e
              | None => String.length text
              end)).
Proof.
  unfold slice, find_from, newline. case_decide as Hstart.
  - destruct (find (String "010" "") (drop_chars start text)) as [i|] eqn:Hline;
      cbn [fmap option_fmap option_map].
    + replace (start + i - start) with i by lia.
      now apply find_char_take.
    + intros Hc%take_chars_subset. revert Hc. now apply find_char_none.
  - replace (String.length text - start) with 0 by lia.
    destruct (drop_chars start text); cbn; apply not_elem_of_nil.
Qed.

(** X11: [diagram_path] stays [None] exactly when the response text is
    empty or does not contain 'The diagram is saved at: '; the cell then
    prints one line that says which of the two it was, and nothing
    else. *)
Theorem X11_no_path_without_marker (text : string) :
  ((show_diagram fs repr text).2 = None ↔
   text = "" ∨ ¬ Athena.contains text path_marker) ∧
  (text = "" →
   show_diagram fs repr text
   = ([Print "No textual response extracted from the agent's result."], None)) ∧
  (text ≠ "" → ¬ Athena.contains text path_marker →
   show_diagram fs repr text
   = ([Print "Agent did not provide a diagram path in the expected format in its response."],
      None)).
Proof.
  split; [|split].
  - unfold show_diagram. case_decide as Htext; [tauto|].
    destruct (find path_marker text) as [found|] eqn:Hfound; cbn.
    + split; [done|]. intros [?|Hno]; [done|].
      apply find_none in Hno. congruence.
    + split; [|done]. intros _. right. now apply find_none.
  - intros ->. reflexivity.
  - intros Htext Hno. unfold show_diagram. rewrite decide_False by done.
    now rewrite (proj2 (find_none path_marker text) Hno).
Qed.

(** X12: the path comes back.  If the response text has the marker for
    the first time at some place, followed by a line without a line break
    and then the end of the text or a line break, [diagram_path] is that
    line stripped of surrounding whitespace and then of surrounding
    backticks and quotes; so a path written there plainly, with nothing
    to strip at its ends, is extracted as it is. *)
Theorem X12_path_after_marker (before padded tail : string) :
  find path_marker (before +:+ path_marker) = Some (String.length before) →
  "010"%char ∉ chars padded →
  (tail = "" ∨ ∃ more, tail = newline +:+ more) →
  let text := before +:+ path_marker +:+ padded +:+ tail in
  (show_diagram fs repr text).2 = Some (strip_set quote_chars (strip padded)) ∧
  (strip padded = padded → strip_set quote_chars padded = padded →
   (show_diagram fs repr text).2 = Some padded).
Proof.
  intros Hfirst Hline Htail text.
  destruct (show_diagram_line before padded tail Hfirst Hline Htail)
    as (Htext & Hfound & Hslice).
  fold text in Htext, Hfound, Hslice.
  assert ((show_diagram fs repr text).2
          = Some (strip_set quote_chars (strip padded))) as Hpath.
  { rewrite (show_diagram_found text _ Htext Hfound). now rewrite Hslice. }
  split; [done|]. intros Hplain Hbare. now rewrite Hpath, Hplain, Hbare.
Qed.

(** X13: whatever the response text is, an extracted [diagram_path]
    has no line break in it and, unless it is empty, neither begins nor
    ends with a backtick, a quote or a double quote. *)
Theorem X13_extracted_path_shape (text : string) shown path :
  show_diagram fs repr text = (shown, Some path) →
  ("010"%char ∉ chars path) ∧
  (path = "" ∨
   (∃ c rest, path = String c rest ∧ c ∉ quote_chars) ∧
   (∃ init c, path = init +:+ String c "" ∧ c ∉ quote_chars)).
Proof.
  unfold show_diagram. case_decide as Htext; [done|].
  destruct (find path_marker text) as [found|] eqn:Hfound; [|done].
  intros [= _ <-]. split; [|apply strip_set_ends].
  intros Hc.
  apply rstrip_set_chars, lstrip_set_chars, strip_chars in Hc.
  now apply slice_line_no_break in Hc.
Qed.

(** X14: the cell displays at most one image, the file at the extracted
    path, and only when that path is not empty and the file exists;
    without an extracted path it displays none. *)
Theorem X14_displays_only_the_extracted_file (text : string) shown path :
  show_diagram fs repr text = (shown, path) →
  displayed shown
  = match path with
    | Some file =>
        if negb (bool_decide (file = "")) && path_exists fs file
        then [file] else []
    | None => []
    end.
Proof.
  unfold show_diagram. case_decide as Htext; [by intros [= <- <-]|].
  destruct (find path_marker text) as [found|]; [|by intros [= <- <-]].
  intros [= <- <-]. cbn [displayed omap list_omap].
  destruct (negb _) eqn:Hempty; cbn [andb]; [|done].
  destruct (path_exists fs _) eqn:Hexists; [done|].
  cbn. now destruct (path_exists fs (dirname fs _)).
Qed.

End DiagramCell.

Section DiagramCellWhole.
Import Python Strands.
Variables (fs : os) (repr : list string → string).

Lemma displayed_app (l k : list shown) :
  displayed (l ++ k) = displayed l ++ displayed k.
Proof. unfold displayed. apply omap_app. Qed.

(** X15: the cell works on the first text it can get, trying in this
    order the attributes [response], [content] and [output] when they hold
    a [str], the result itself when it is a [str], and [str()] of the
    result; an attribute that holds something else counts as missing.  Its
    [diagram_path] and the image it displays are those of that text, and
    those of the empty text (no path, no image) when [str()] fails too:
    the failure is printed, not raised.  Taking the text prints nothing
    when one of the first four sources gives it, the line 'DEBUG:
    Converted agent_result to string.' when [str()] gives it, and when
    [str()] fails the line 'ERROR: Could not extract text from
    AgentResult. Error: ' followed by the exception, then the line that
    asks to inspect the attributes; the cell then goes on to print the
    empty text between its two rules and the line 'No textual response
    extracted from the agent's result.'. *)
Theorem X15_first_available_text (agent_result : AgentResult) :
  let candidates :=
    [str_attribute (response agent_result);
     str_attribute (content agent_result);
     str_attribute (output agent_result);
     as_str agent_result;
     match to_str agent_result with
     | Converted text => Some text
     | Failed _ => None
     end] in
  let chosen := default "" (head (omap id candidates)) in
  (extract_text agent_result).2 = chosen ∧
  (diagram_cell fs repr agent_result).2 = (show_diagram fs repr chosen).2 ∧
  displayed (diagram_cell fs repr agent_result).1
  = displayed (show_diagram fs repr chosen).1 ∧
  (candidates = [None; None; None; None; None] →
   (diagram_cell fs repr agent_result).2 = None ∧
   displayed (diagram_cell fs repr agent_result).1 = []) ∧
  (extract_text agent_result).1
  = match omap id (take 4 candidates), to_str agent_result with
    | _ :: _, _ => []
    | [], Converted _ => [Print "DEBUG: Converted agent_result to string."]
    | [], Failed e =>
        [Print ("ERROR: Could not extract text from AgentResult. Error: " +:+ e);
         Print "Please inspect the 'DEBUG: Attributes of agent_result' output above to determine the correct attribute for the response text."]
    end ∧
  (∀ e,
     candidates = [None; None; None; None; None] →
     to_str agent_result = Failed e →
     diagram_cell fs repr agent_result
     = ([Print ("ERROR: Could not extract text from AgentResult. Error: " +:+ e);
         Print "Please inspect the 'DEBUG: Attributes of agent_result' output above to determine the correct attribute for the response text.";
         Print (newline +:+ "--- Agent's Full Response Text ---");
         Print "";
         Print ("--- End of Agent's Full Response Text ---" +:+ newline);
         Print "No textual response extracted from the agent's result."],
        None)).
Proof.
  intros candidates chosen.
  assert ((extract_text agent_result).2 = chosen) as Htext.
  { unfold chosen, candidates, extract_text.
    destruct (str_attribute (response agent_result)); [done|].
    destruct (str_attribute (content agent_result)); [done|].
    destruct (str_attribute (output agent_result)); [done|].
    destruct (as_str agent_result); [done|].
    now destruct (to_str agent_result). }
  assert (displayed (extract_text agent_result).1 = []) as Hnotes.
  { unfold extract_text.
    destruct (str_attribute (response agent_result)); [done|].
    destruct (str_attribute (content agent_result)); [done|].
    destruct (str_attribute (output agent_result)); [done|].
    destruct (as_str agent_result); [done|].
    now destruct (to_str agent_result). }
  assert ((diagram_cell fs repr agent_result).2 = (show_diagram fs repr chosen).2
          ∧ displayed (diagram_cell fs repr agent_result).1
            = displayed (show_diagram fs repr chosen).1) as [Hpath Himage].
  { unfold diagram_cell.
    destruct (extract_text agent_result) as [notes text].
    cbn [fst snd] in Htext, Hnotes.
    subst text. destruct (show_diagram fs repr chosen) as [after path].
    cbn [fst snd]. split; [done|].
    rewrite !displayed_app, Hnotes. reflexivity. }
  split; [done|]. split; [done|]. split; [done|].
  split; [|split].
  - intros Hnone. rewrite Hpath, Himage. unfold chosen. now rewrite Hnone.
  - unfold candidates, extract_text. cbn [take].
    destruct (str_attribute (response agent_result)); [done|].
    destruct (str_attribute (content agent_result)); [done|].
    destruct (str_attribute (output agent_result)); [done|].
    destruct (as_str agent_result); [done|].
    now destruct (to_str agent_result).
  - intros e [= Hresponse Hcontent Houtput Hstr _] Hfailed.
    unfold diagram_cell, extract_text.
    now rewrite Hresponse, Hcontent, Houtput, Hstr, Hfailed.
Qed.

End DiagramCellWhole.

Section DiagramCellRuns.
Import Python Strands.

(** An answer with the path in backticks on a line of its own. *)
Lemma X12_path_after_marker_witness :
  (show_diagram one_diagram (λ _, "[]")
     ("Done." +:+ newline
      +:+ path_marker +:+ "`/tmp/generated-diagrams/site.png`"
      +:+ newline +:+ "Enjoy.")).2
  = Some "/tmp/generated-diagrams/site.png".
Proof.
  apply (X12_path_after_marker one_diagram (λ _, "[]")
           ("Done." +:+ newline) "`/tmp/generated-diagrams/site.png`"
           (newline +:+ "Enjoy.")).
  - reflexivity.
  - apply (bool_decide_unpack _). vm_compute. exact I.
  - right. now exists "Enjoy.".
Defined.

Lemma X13_extracted_path_shape_witness :
  "010"%char ∉ chars "/tmp/generated-diagrams/site.png".
Proof.
  apply (X13_extracted_path_shape one_diagram (λ _, "[]")
           (path_marker +:+ "'/tmp/generated-diagrams/site.png'")
           [Print (newline +:+ "Extracted diagram path: '/tmp/generated-diagrams/site.png'");
            Print "Displaying diagram from: /tmp/generated-diagrams/site.png";
            DisplayImage "/tmp/generated-diagrams/site.png"]
           "/tmp/generated-diagrams/site.png").
  reflexivity.
Defined.

Lemma X14_displays_only_the_extracted_file_witness :
  displayed
    [Print (newline +:+ "Extracted diagram path: '/tmp/generated-diagrams/site.png'");
     Print "Displaying diagram from: /tmp/generated-diagrams/site.png";
     DisplayImage "/tmp/generated-diagrams/site.png"]
  = ["/tmp/generated-diagrams/site.png"].
Proof.
  apply (X14_displays_only_the_extracted_file one_diagram (λ _, "[]")
           (path_marker +:+ "'/tmp/generated-diagrams/site.png'")
           _ (Some "/tmp/generated-diagrams/site.png")).
  reflexivity.
Defined.

(** An answer that does not name a file. *)
Lemma X11_no_path_without_marker_witness :
  show_diagram one_diagram (λ _, "[]") "I could not draw the diagram."
  = ([Print "Agent did not provide a diagram path in the expected format in its response."],
     None).
Proof.
  apply (X11_no_path_without_marker one_diagram (λ _, "[]")
           "I could not draw the diagram.").
  - discriminate.
  - apply find_none. reflexivity.
Defined.

(** A result without usable attributes whose [str()] raises: the two
    lines about the failure, the empty text between the rules, and the
    line that says no text was extracted. *)
Lemma X15_first_available_text_witness :
  diagram_cell one_diagram (λ _, "[]")
    (mkAgentResult None (Some OtherValue) None None (Failed "boom"))
  = ([Print "ERROR: Could not extract text from AgentResult. Error: boom";
      Print "Please inspect the 'DEBUG: Attributes of agent_result' output above to determine the correct attribute for the response text.";
      Print (newline +:+ "--- Agent's Full Response Text ---");
      Print "";
      Print ("--- End of Agent's Full Response Text ---" +:+ newline);
      Print "No textual response extracted from the agent's result."],
     None).
Proof.
  destruct (X15_first_available_text one_diagram (λ _, "[]")
              (mkAgentResult None (Some OtherValue) None None (Failed "boom")))
    as (_ & _ & _ & _ & _ & Hfailed).
  apply (Hfailed "boom").
  - reflexivity.
  - reflexivity.
Defined.

(** The whole cell on a result that only [str()] can read. *)
Example diagram_cell_from_str :
  diagram_cell one_diagram (λ _, "[]")
    (mkAgentResult (Some OtherValue) None None None
       (Converted ("The diagram is saved at: /tmp/generated-diagrams/site.png"
                   +:+ newline)))
  = ([Print "DEBUG: Converted agent_result to string.";
      Print (newline +:+ "--- Agent's Full Response Text ---");
      Print ("The diagram is saved at: /tmp/generated-diagrams/site.png"
             +:+ newline);
      Print ("--- End of Agent's Full Response Text ---" +:+ newline);
      Print (newline +:+ "Extracted diagram path: '/tmp/generated-diagrams/site.png'");
      Print "Displaying diagram from: /tmp/generated-diagrams/site.png";
      DisplayImage "/tmp/generated-diagrams/site.png"],
     Some "/tmp/generated-diagrams/site.png").
Proof. reflexivity. Qed.

(** Whitespace inside the backticks is not stripped: the quotes go
    after the whitespace, and what they enclosed stays as it is. *)
Example space_inside_backticks :
  (show_diagram one_diagram (λ _, "[]")
     (path_marker +:+ "` /tmp/generated-diagrams/site.png `")).1
  = [Print (newline +:+ "Extracted diagram path: ' /tmp/generated-diagrams/site.png '");
     Print "Diagram file not found at the specified path:  /tmp/generated-diagrams/site.png ";
     Print "Please ensure the path is correct and the diagram generation tool is saving to this location relative to your notebook's CWD or an absolute path.";
     Print "Current working directory: /home/sagemaker-user";
     Print "Directory '/tmp/generated-diagrams' does NOT exist."].
Proof. reflexivity. Qed.

(** Only quotes after the marker: a path is extracted, and it is empty. *)
Example only_quotes_after_marker :
  show_diagram one_diagram (λ _, "[]") (path_marker +:+ "''")
  = ([Print (newline +:+ "Extracted diagram path: ''");
      Print "Could not find a valid diagram path string after extraction."],
     Some "").
Proof. reflexivity. Qed.

End DiagramCellRuns.
